(** * Download watcher and export orchestration of the map-export scripts

    Shallow embedding of [waitForDownload] / [checkDownload] and of the
    asynchronous main function of the two export scripts that use them
    (the second script of [src/entry.cjs] and [src/unnamed/part_000]).

    The JavaScript is written against Node's [fs], [path], timers and
    promises.  Their behaviour is the environment of the model:

    - every call into [fs] is answered by a [snapshot], the file system as
      it stands at the moment of that call; the [world] gives one snapshot
      per call, so other processes (the browser writing the download) may
      change anything between any two calls of the script;
    - [Date.now()] reads a millisecond clock; [setTimeout(f, 100)] runs [f]
      exactly 100 ms later and synchronous code takes no time;
    - an exception thrown while a promise executor runs rejects the promise;
      an exception thrown by a timer callback is caught by nobody and ends
      the process (Node's default, exit code 1);
    - the polling loop need not end, so it runs on fuel: one unit per call
      of [checkDownload], and [Pending] when the fuel is used up. *)

From Stdlib Require Import ZArith List String Bool Lia.
Import ListNotations.

Open Scope string_scope.
Open Scope list_scope.
Open Scope Z_scope.

(** String concatenation ([+] on strings and template literals). *)
Infix "+:+" := String.append (at level 60, right associativity).

(** ** Exceptions and results *)

Inductive error : Type :=
| ENOENT
| EACCES
| ENOTDIR
| EEXIST
| EOTHER (msg : string).

Inductive result (A : Type) : Type :=
| Ok (a : A)
| Throw (e : error).
Arguments Ok {A} a.
Arguments Throw {A} e.

(** ** The observed file system *)

(** What the four [fs] functions the scripts use answer at one instant. *)
Record snapshot : Type := {
  existsSync_of : string -> bool;
  mkdirSync_of : string -> result unit;
  readdirSync_of : string -> result (list string);
  statSync_size_of : string -> result Z
}.

Definition world : Type := nat -> snapshot.

(** ** Events *)

Inductive step : Type :=
| Listen | Launch | NewPage | CreateCDPSession | SetDownloadBehavior
| Goto | SetForm | Generate | Statistics | ExportToJson
| BrowserClose.

Inductive event : Type :=
| FsExists (p : string) (r : bool)
| FsMkdir (p : string) (r : result unit)
| FsReaddir (p : string) (t : Z) (r : result (list string))
| FsStat (p : string) (t : Z) (r : result Z)
| Call (c : step)
| ServerClose
| ConsoleLog (msg : string)
| ConsoleError (msg : string)
| ProcessExit (code : Z).

Definition trace : Type := list event.

(** ** The monad of synchronous script code

    A computation reads the clock and the number of [fs] calls made so far,
    returns a value or throws, and emits the events it caused. *)

Record cfg : Type := { now : Z; seq : nat }.

Definition M (A : Type) : Type := cfg -> result A * cfg * trace.

Definition ret {A} (a : A) : M A := fun c => (Ok a, c, []).

Definition throw {A} (e : error) : M A := fun c => (Throw e, c, []).

Definition bind {A B} (m : M A) (k : A -> M B) : M B :=
  fun c =>
    match m c with
    | (Ok a, c1, t1) =>
        match k a c1 with
        | (r, c2, t2) => (r, c2, t1 ++ t2)
        end
    | (Throw e, c1, t1) => (Throw e, c1, t1)
    end.

Notation "x <- m ;; k" := (bind m (fun x => k))
  (at level 61, m at next level, right associativity).
Notation "m ;;; k" := (bind m (fun _ => k))
  (at level 61, right associativity).

(** The parts of what a computation gives. *)
Definition outcome_of {A} (x : A * cfg * trace) : A := fst (fst x).
Definition cfg_of {A} (x : A * cfg * trace) : cfg := snd (fst x).
Definition trace_of {A} (x : A * cfg * trace) : trace := snd x.

Definition emit (ev : event) : M unit := fun c => (Ok tt, c, [ev]).

Definition console_log (msg : string) : M unit := emit (ConsoleLog msg).
Definition console_error (msg : string) : M unit := emit (ConsoleError msg).

Definition Date_now : M Z := fun c => (Ok (now c), c, []).

(** One call into [fs]: answered by the next snapshot of the world. *)
Definition fs_call {A} (w : world) (ask : snapshot -> result A)
    (ev : Z -> result A -> event) : M A :=
  fun c =>
    let r := ask (w (seq c)) in
    (r, {| now := now c; seq := S (seq c) |}, [ev (now c) r]).

Definition readdirSync (w : world) (p : string) : M (list string) :=
  fs_call w (fun s => readdirSync_of s p) (FsReaddir p).

Definition statSync_size (w : world) (p : string) : M Z :=
  fs_call w (fun s => statSync_size_of s p) (FsStat p).

Definition existsSync (w : world) (p : string) : M bool :=
  fun c =>
    let r := existsSync_of (w (seq c)) p in
    (Ok r, {| now := now c; seq := S (seq c) |}, [FsExists p r]).

Definition mkdirSync (w : world) (p : string) : M unit :=
  fs_call w (fun s => mkdirSync_of s p) (fun _ => FsMkdir p).

(** [path.join(dir, name)] and [path.resolve(dir, name)] for a normalised
    absolute [dir] and a bare entry name, which is what the scripts pass:
    [__dirname], the literal ['downloads'], and names delivered by
    [readdirSync]. *)
Definition path_join (dir name : string) : string := dir +:+ "/" +:+ name.
Definition path_resolve (dir name : string) : string := dir +:+ "/" +:+ name.

(** ** Promises and timers *)

(** How a call of [waitForDownload] stands once the fuel is spent. *)
Inductive outcome : Type :=
| Fulfilled (v : option string)   (* resolve(filePath) / resolve(null) *)
| Rejected (e : error)            (* thrown inside the promise executor *)
| Uncaught (e : error)            (* thrown inside a timer callback *)
| Pending.                        (* still polling *)

Definition pollInterval : Z := 100.

(** [setTimeout(cb, ms)]: the callback runs [ms] later, outside the
    executor; what it throws is no longer caught by the promise. *)
Definition setTimeout (cb : M outcome) (ms : Z) : M outcome :=
  fun c =>
    match cb {| now := now c + ms; seq := seq c |} with
    | (Ok o, c', t) => (Ok o, c', t)
    | (Throw e, c', t) => (Ok (Uncaught e), c', t)
    end.

(** [new Promise(executor)]. *)
Definition new_Promise (executor : M outcome) (c : cfg) : outcome * cfg * trace :=
  match executor c with
  | (Ok o, c', t) => (o, c', t)
  | (Throw e, c', t) => (Rejected e, c', t)
  end.

(** [initialFiles.includes(file)] on an array of strings. *)
Definition includes (l : list string) (x : string) : bool :=
  existsb (String.eqb x) l.

(** [currentFiles.filter(file => !initialFiles.includes(file))]. *)
Definition newFiles (initialFiles currentFiles : list string) : list string :=
  filter (fun file => negb (includes initialFiles file)) currentFiles.

(** ** The watcher *)

Section Watcher.
Variable w : world.
Variable downloadPath : string.
Variable timeout : Z.

Section Closure.
Variable startTime : Z.
Variable initialFiles : list string.

Fixpoint checkDownload (fuel : nat) : M outcome :=
  match fuel with
  | O => ret Pending
  | S fuel' =>
      currentFiles <- readdirSync w downloadPath ;;
      match newFiles initialFiles currentFiles with
      | file0 :: _ =>
          let filePath := path_join downloadPath file0 in
          fileSizeBefore <- statSync_size w filePath ;;
          setTimeout
            (fileSizeAfter <- statSync_size w filePath ;;
             if fileSizeBefore =? fileSizeAfter then
               console_log ("Download completed: " +:+ file0) ;;;
               ret (Fulfilled (Some filePath))
             else
               checkDownload fuel')
            100
      | [] =>
          t <- Date_now ;;
          if t - startTime <? timeout then
            setTimeout (checkDownload fuel') 100
          else
            console_log "Download timed out" ;;;
            ret (Fulfilled None)
      end
  end.
End Closure.

Definition waitForDownload (fuel : nat) : cfg -> outcome * cfg * trace :=
  new_Promise
    (startTime <- Date_now ;;
     initialFiles <- readdirSync w downloadPath ;;
     checkDownload startTime initialFiles fuel).
End Watcher.

Definition default_timeout : Z := 30000.

(** ** The orchestration

    [express], [http] and [puppeteer] are collaborators: each awaited call
    is a [step] that the environment lets succeed with a value (rendered as
    text) or fail.  [Part000] is the script of [src/unnamed/part_000],
    [EntryCjs] the second script of [src/entry.cjs]; they differ between
    page load and export only. *)

Inductive script : Type := Part000 | EntryCjs.

(** How the async main function stands when it stops running. *)
Inductive status : Type :=
| Completed                 (* ran to its end; its promise is fulfilled *)
| Crashed (e : error)       (* a timer callback threw while main was waiting *)
| Hung.                     (* still waiting for the watcher *)

Definition show_error (e : error) : string :=
  match e with
  | ENOENT => "ENOENT"
  | EACCES => "EACCES"
  | ENOTDIR => "ENOTDIR"
  | EEXIST => "EEXIST"
  | EOTHER msg => msg
  end.

Definition nl : string := String (Ascii.ascii_of_nat 10) EmptyString.

(** JavaScript truthiness of [path | null]. *)
Definition truthy (v : option string) : bool :=
  match v with
  | Some s => negb (String.eqb s "")
  | None => false
  end.

Section Orchestration.
Variable w : world.
Variable answer : step -> result string.
Variable stats_field : string -> string.
Variable dirname : string.

Definition await_call (c : step) : M string :=
  emit (Call c) ;;;
  match answer c with
  | Ok v => ret v
  | Throw e => throw e
  end.

(** [await p] for the watcher's promise. *)
Definition await_promise (p : cfg -> outcome * cfg * trace)
    (k : option string -> M status) : M status :=
  fun c =>
    match p c with
    | (Fulfilled v, c1, t1) =>
        match k v c1 with
        | (r, c2, t2) => (r, c2, t1 ++ t2)
        end
    | (Rejected e, c1, t1) => (Throw e, c1, t1)
    | (Uncaught e, c1, t1) => (Ok (Crashed e), c1, t1)
    | (Pending, c1, t1) => (Ok Hung, c1, t1)
    end.

Definition mapOptions_seed : string := "AgentMatrix2025".

Definition print_statistics : M unit :=
  console_log (nl +:+ "=== MAP STATISTICS ===") ;;;
  console_log ("Seed: " +:+ stats_field "seed") ;;;
  console_log ("Canvas size: " +:+ stats_field "graphWidth" +:+ "x"
               +:+ stats_field "graphHeight" +:+ " px") ;;;
  console_log ("Heightmap: " +:+ stats_field "template") ;;;
  console_log ("Template: " +:+ stats_field "templateType") ;;;
  console_log ("Points: " +:+ stats_field "points") ;;;
  console_log ("Cells: " +:+ stats_field "cells") ;;;
  console_log ("Map size: " +:+ stats_field "mapSize" +:+ "%") ;;;
  console_log ("States: " +:+ stats_field "states") ;;;
  console_log ("Provinces: " +:+ stats_field "provinces") ;;;
  console_log ("Burgs: " +:+ stats_field "burgs") ;;;
  console_log ("Religions: " +:+ stats_field "religions") ;;;
  console_log ("Culture set: " +:+ stats_field "culturesSet") ;;;
  console_log ("Cultures: " +:+ stats_field "cultures") ;;;
  console_log ("=====================" +:+ nl).

(** From page load to the statistics. *)
Definition generate_map (sc : script) : M unit :=
  match sc with
  | Part000 =>
      genResult <- await_call Generate ;;
      console_log ("generate returned: " +:+ genResult) ;;;
      stats <- await_call Statistics ;;
      console_log ("Map statistics: " +:+ stats)
  | EntryCjs =>
      await_call SetForm ;;;
      console_log ("Starting map generation with seed: " +:+ mapOptions_seed) ;;;
      await_call Generate ;;;
      console_log "Map generation complete" ;;;
      await_call Statistics ;;;
      print_statistics
  end.

(** Everything up to and including the export call; gives [downloadPath]. *)
Definition before_download (sc : script) : M string :=
  let downloadPath := path_resolve dirname "downloads" in
  present <- existsSync w downloadPath ;;
  (if negb present then mkdirSync w downloadPath else ret tt) ;;;
  await_call Listen ;;;
  console_log "Server started: http://localhost:3000" ;;;
  await_call Launch ;;;
  await_call NewPage ;;;
  await_call CreateCDPSession ;;;
  await_call SetDownloadBehavior ;;;
  await_call Goto ;;;
  generate_map sc ;;;
  console_log "Starting JSON export..." ;;;
  exportResult <- await_call ExportToJson ;;
  console_log ("exportToJson returned: " +:+ exportResult) ;;;
  ret downloadPath.

(** What follows [const downloadedFile = await waitForDownload()]. *)
Definition after_download (downloadPath : string)
    (downloadedFile : option string) : M status :=
  await_call BrowserClose ;;;
  emit ServerClose ;;;
  (if truthy downloadedFile then
     console_log ("JSON file successfully downloaded to: "
                  +:+ match downloadedFile with Some p => p | None => "" end)
   else
     console_error ("Failed to download JSON file to: " +:+ downloadPath)) ;;;
  console_log "Server closed." ;;;
  ret Completed.

Definition main (sc : script) (fuel : nat) : M status :=
  downloadPath <- before_download sc ;;
  await_promise (waitForDownload w downloadPath default_timeout fuel)
    (after_download downloadPath).

(** The script as a process: the exit code, if it exits, and all events.
    [main(...).catch(err => { console.error(...); process.exit(1) })];
    a process whose main function completes exits with code 0 once
    nothing is left to run. *)
Definition run (sc : script) (fuel : nat) (c : cfg) : option Z * trace :=
  match main sc fuel c with
  | (Ok Completed, _, t) => (Some 0, t)
  | (Ok (Crashed e), _, t) => (Some 1, t)
  | (Ok Hung, _, t) => (None, t)
  | (Throw e, _, t) =>
      (Some 1, t ++ [ConsoleError ("Error occurred: " +:+ show_error e);
                     ProcessExit 1])
  end.
End Orchestration.

Definition start : cfg := {| now := 0; seq := 0 |}.

(** ** Reading traces *)

(** The exception an [fs] call ended with, if it threw. *)
Definition failure (ev : event) : option error :=
  match ev with
  | FsMkdir _ (Throw e) => Some e
  | FsReaddir _ _ (Throw e) => Some e
  | FsStat _ _ (Throw e) => Some e
  | _ => None
  end.

(** Calls that change the file system. *)
Definition mutates (ev : event) : bool :=
  match ev with
  | FsMkdir _ _ => true
  | _ => false
  end.

(** The only events a watch may cause on directory [dir]. *)
Definition watcher_event (dir : string) (ev : event) : Prop :=
  match ev with
  | FsReaddir p _ _ => p = dir
  | FsStat p _ _ => exists name, p = path_join dir name
  | ConsoleLog _ => True
  | _ => False
  end.

(** The directory listing a trace saw last. *)
Fixpoint last_listing (t : trace) : option (list string) :=
  match t with
  | [] => None
  | ev :: t' =>
      match last_listing t' with
      | Some l => Some l
      | None =>
          match ev with
          | FsReaddir _ _ (Ok l) => Some l
          | _ => None
          end
      end
  end.

(** ** The runs of [checkDownload] as a relation

    [polls c r c' t]: started in [c], the polling loop stops in [c'] with
    [r] after the events [t].  One rule per way through the body of
    [checkDownload]; the two recursive rules run the next poll inside a
    timer callback, where a thrown exception is no longer a rejection. *)

Definition in_timer (r : result outcome) : result outcome :=
  match r with
  | Throw e => Ok (Uncaught e)
  | Ok o => Ok o
  end.

Section Polls.
Variable w : world.
Variable dir : string.
Variable timeout : Z.
Variable startTime : Z.
Variable initialFiles : list string.

(** The configuration after [k] more [fs] calls, and after a timer. *)
Definition called (k : nat) (c : cfg) : cfg :=
  {| now := now c; seq := (k + seq c)%nat |}.

Definition after (k : nat) (ms : Z) (c : cfg) : cfg :=
  {| now := now c + ms; seq := (k + seq c)%nat |}.

Inductive polls : cfg -> result outcome -> cfg -> trace -> Prop :=
| polls_pending c :
    polls c (Ok Pending) c []
| polls_list_fail c e :
    readdirSync_of (w (seq c)) dir = Throw e ->
    polls c (Throw e) (called 1 c) [FsReaddir dir (now c) (Throw e)]
| polls_timed_out c l :
    readdirSync_of (w (seq c)) dir = Ok l ->
    newFiles initialFiles l = [] ->
    timeout <= now c - startTime ->
    polls c (Ok (Fulfilled None)) (called 1 c)
      [FsReaddir dir (now c) (Ok l); ConsoleLog "Download timed out"]
| polls_wait c l r c' t :
    readdirSync_of (w (seq c)) dir = Ok l ->
    newFiles initialFiles l = [] ->
    now c - startTime < timeout ->
    polls (after 1 100 c) r c' t ->
    polls c (in_timer r) c' (FsReaddir dir (now c) (Ok l) :: t)
| polls_before_fail c l n rest e :
    readdirSync_of (w (seq c)) dir = Ok l ->
    newFiles initialFiles l = n :: rest ->
    statSync_size_of (w (S (seq c))) (path_join dir n) = Throw e ->
    polls c (Throw e) (called 2 c)
      [FsReaddir dir (now c) (Ok l);
       FsStat (path_join dir n) (now c) (Throw e)]
| polls_after_fail c l n rest sz e :
    readdirSync_of (w (seq c)) dir = Ok l ->
    newFiles initialFiles l = n :: rest ->
    statSync_size_of (w (S (seq c))) (path_join dir n) = Ok sz ->
    statSync_size_of (w (S (S (seq c)))) (path_join dir n) = Throw e ->
    polls c (Ok (Uncaught e)) (after 3 100 c)
      [FsReaddir dir (now c) (Ok l);
       FsStat (path_join dir n) (now c) (Ok sz);
       FsStat (path_join dir n) (now c + 100) (Throw e)]
| polls_done c l n rest sz :
    readdirSync_of (w (seq c)) dir = Ok l ->
    newFiles initialFiles l = n :: rest ->
    statSync_size_of (w (S (seq c))) (path_join dir n) = Ok sz ->
    statSync_size_of (w (S (S (seq c)))) (path_join dir n) = Ok sz ->
    polls c (Ok (Fulfilled (Some (path_join dir n)))) (after 3 100 c)
      [FsReaddir dir (now c) (Ok l);
       FsStat (path_join dir n) (now c) (Ok sz);
       FsStat (path_join dir n) (now c + 100) (Ok sz);
       ConsoleLog ("Download completed: " +:+ n)]
| polls_changed c l n rest sz sz' r c' t :
    readdirSync_of (w (seq c)) dir = Ok l ->
    newFiles initialFiles l = n :: rest ->
    statSync_size_of (w (S (seq c))) (path_join dir n) = Ok sz ->
    statSync_size_of (w (S (S (seq c)))) (path_join dir n) = Ok sz' ->
    sz <> sz' ->
    polls (after 3 100 c) r c' t ->
    polls c (in_timer r) c'
      (FsReaddir dir (now c) (Ok l)
       :: FsStat (path_join dir n) (now c) (Ok sz)
       :: FsStat (path_join dir n) (now c + 100) (Ok sz') :: t).
End Polls.

(** A promise settles with what its executor's loop ended with. *)
Definition settle (r : result outcome) : outcome :=
  match r with
  | Ok o => o
  | Throw e => Rejected e
  end.

(** From the [from]-th call on, every listing of [dir] succeeds and shows
    nothing but entries of the baseline [init]. *)
Definition nothing_new (w : world) (dir : string) (init : list string)
    (from : nat) : Prop :=
  forall i, (from <= i)%nat ->
    exists l, readdirSync_of (w i) dir = Ok l /\ forall x, In x l -> In x init.

(** ** Example environments *)

Definition snap (names : list string) (size : string -> result Z) : snapshot :=
  {| existsSync_of := fun _ => true;
     mkdirSync_of := fun _ => Throw EEXIST;
     readdirSync_of := fun _ => Ok names;
     statSync_size_of := size |}.

(** Nothing ever happens: one old file, no download. *)
Definition quiet : world :=
  fun _ => snap ["old.json"] (fun _ => Ok 7).

(** The empty directory of the spec's timeout scenario. *)
Definition empty : world :=
  fun _ => snap [] (fun _ => Throw ENOENT).

(** A download that appears after the baseline and grows between any two
    looks at it. *)
Definition growing : world :=
  fun i =>
    match i with
    | O => snap ["old.json"] (fun _ => Ok 7)
    | _ => snap ["old.json"; "out.json"] (fun _ => Ok (Z.of_nat i))
    end.

(** The spec's scenario: the directory starts empty and [out.json], 500
    bytes, is written in one piece at 150 ms, that is after the baseline
    read and the polls at 0 and 100 ms. *)
Definition one_shot : world :=
  fun i =>
    if (i <? 3)%nat then snap [] (fun _ => Throw ENOENT)
    else snap ["out.json"] (fun _ => Ok 500).

(** A temporary download file that is renamed right after it was listed. *)
Definition renamed : world :=
  fun i =>
    match i with
    | O => snap [] (fun _ => Throw ENOENT)
    | S O => snap ["out.json.crdownload"] (fun _ => Ok 10)
    | _ => snap ["out.json"] (fun p =>
             if String.eqb p "/app/downloads/out.json" then Ok 500
             else Throw ENOENT)
    end.

(** The download directory is missing. *)
Definition missing : world :=
  fun _ =>
    {| existsSync_of := fun _ => false;
       mkdirSync_of := fun _ => Ok tt;
       readdirSync_of := fun _ => Throw ENOENT;
       statSync_size_of := fun _ => Throw ENOENT |}.

Definition all_ok : step -> result string := fun _ => Ok "undefined".

Definition no_stats : string -> string := fun _ => "undefined".

(** ** The script that does not wait

    The first script of [src/entry.cjs]: the same steps up to the export,
    then the browser and the server are closed at once; it has no watcher
    and no rejection handler. *)

Section NoWait.
Variable w : world.
Variable answer : step -> result string.
Variable dirname : string.

Definition main_no_wait : M unit :=
  let downloadPath := path_resolve dirname "downloads" in
  present <- existsSync w downloadPath ;;
  (if negb present then mkdirSync w downloadPath else ret tt) ;;;
  await_call answer Listen ;;;
  console_log "Server started: http://localhost:3000" ;;;
  await_call answer Launch ;;;
  await_call answer NewPage ;;;
  await_call answer CreateCDPSession ;;;
  await_call answer SetDownloadBehavior ;;;
  await_call answer Goto ;;;
  genResult <- await_call answer Generate ;;
  console_log ("generate returned: " +:+ genResult) ;;;
  exportResult <- await_call answer ExportToJson ;;
  console_log ("exportToJson returned: " +:+ exportResult) ;;;
  await_call answer BrowserClose ;;;
  emit ServerClose ;;;
  console_log ("JSON file should have been downloaded to: " +:+ downloadPath) ;;;
  console_log "Server closed.".
End NoWait.

(** ** Reading the traces of the scripts *)

(** The collaborator calls of a trace, in order. *)
Definition calls (t : trace) : list step :=
  flat_map (fun ev => match ev with Call s => [s] | _ => [] end) t.

Definition is_fs (ev : event) : bool :=
  match ev with
  | FsExists _ _ | FsMkdir _ _ | FsReaddir _ _ _ | FsStat _ _ _ => true
  | _ => false
  end.

(** The [fs] calls of a trace, in order. *)
Definition fs_events (t : trace) : trace := filter is_fs t.

(** The awaited calls of the two watching scripts up to the export, in the
    order of the source. *)
Definition steps_before_download (sc : script) : list step :=
  [Listen; Launch; NewPage; CreateCDPSession; SetDownloadBehavior; Goto]
  ++ match sc with
     | Part000 => [Generate; Statistics]
     | EntryCjs => [SetForm; Generate; Statistics]
     end
  ++ [ExportToJson].


(** Calling steps in order and stopping at the first one that fails: the
    steps called, and the error if one failed. *)
Fixpoint calls_until_failure (answer : step -> result string)
    (steps : list step) : list step * option error :=
  match steps with
  | [] => ([], None)
  | s :: rest =>
      match answer s with
      | Ok _ =>
          match calls_until_failure answer rest with
          | (called_steps, e) => (s :: called_steps, e)
          end
      | Throw e => ([s], Some e)
      end
  end.

(** What making sure the download directory exists gives: nothing to do
    when [existsSync] says it is there, else the result of [mkdirSync]. *)
Definition ensure_directory (w : world) (c : cfg) (dir : string) : result unit :=
  if existsSync_of (w (seq c)) dir then Ok tt
  else mkdirSync_of (w (S (seq c))) dir.

(** From the [from]-th call on, a listing always shows an entry the
    baseline lacks, and two size reads of the first such entry in a row
    succeed with different sizes. *)
Definition keeps_changing (w : world) (dir : string) (init : list string)
    (from : nat) : Prop :=
  forall i, (from <= i)%nat ->
    exists l n rest a b,
      readdirSync_of (w i) dir = Ok l /\
      newFiles init l = n :: rest /\
      statSync_size_of (w (S i)) (path_join dir n) = Ok a /\
      statSync_size_of (w (S (S i))) (path_join dir n) = Ok b /\
      a <> b.

(** The download of [growing] for a script that first asks whether the
    download directory exists: everything one call later. *)
Definition growing_after_check : world := fun i => growing (pred i).

(** * Properties *)

Ltac unfold_M :=
  unfold console_log, console_error, readdirSync, statSync_size in *;
  unfold bind, ret, throw, emit, Date_now, fs_call, setTimeout,
    new_Promise in *.

(** ** The body of [checkDownload], call by call *)

Lemma checkDownload_S w dir timeout st init fuel c :
  checkDownload w dir timeout st init (S fuel) c =
  match readdirSync_of (w (seq c)) dir with
  | Throw e => (Throw e, called 1 c, [FsReaddir dir (now c) (Throw e)])
  | Ok l =>
      match newFiles init l with
      | [] =>
          if now c - st <? timeout then
            match checkDownload w dir timeout st init fuel (after 1 100 c) with
            | (r, c', t) => (in_timer r, c', FsReaddir dir (now c) (Ok l) :: t)
            end
          else
            (Ok (Fulfilled None), called 1 c,
             [FsReaddir dir (now c) (Ok l); ConsoleLog "Download timed out"])
      | n :: _ =>
          match statSync_size_of (w (S (seq c))) (path_join dir n) with
          | Throw e =>
              (Throw e, called 2 c,
               [FsReaddir dir (now c) (Ok l);
                FsStat (path_join dir n) (now c) (Throw e)])
          | Ok sz =>
              match statSync_size_of (w (S (S (seq c)))) (path_join dir n) with
              | Throw e =>
                  (Ok (Uncaught e), after 3 100 c,
                   [FsReaddir dir (now c) (Ok l);
                    FsStat (path_join dir n) (now c) (Ok sz);
                    FsStat (path_join dir n) (now c + 100) (Throw e)])
              | Ok sz' =>
                  if sz =? sz' then
                    (Ok (Fulfilled (Some (path_join dir n))), after 3 100 c,
                     [FsReaddir dir (now c) (Ok l);
                      FsStat (path_join dir n) (now c) (Ok sz);
                      FsStat (path_join dir n) (now c + 100) (Ok sz');
                      ConsoleLog ("Download completed: " +:+ n)])
                  else
                    match checkDownload w dir timeout st init fuel
                            (after 3 100 c) with
                    | (r, c', t) =>
                        (in_timer r, c',
                         FsReaddir dir (now c) (Ok l)
                         :: FsStat (path_join dir n) (now c) (Ok sz)
                         :: FsStat (path_join dir n) (now c + 100) (Ok sz')
                         :: t)
                    end
              end
          end
      end
  end.
Proof.
  cbn [checkDownload]. unfold_M. cbn [now seq].
  destruct (readdirSync_of (w (seq c)) dir) as [l|e]; [|reflexivity].
  destruct (newFiles init l) as [|n rest]; cbn [now seq].
  - destruct (now c - st <? timeout); [|reflexivity].
    unfold after. cbn [Nat.add now seq].
    destruct (checkDownload w dir timeout st init fuel _) as [[[o|e] c'] t];
      reflexivity.
  - destruct (statSync_size_of (w (S (seq c))) (path_join dir n)) as [sz|e];
      [|reflexivity].
    cbn [now seq].
    destruct (statSync_size_of (w (S (S (seq c)))) (path_join dir n))
      as [sz'|e]; [|reflexivity].
    destruct (sz =? sz'); [reflexivity|].
    unfold after. cbn [Nat.add now seq].
    destruct (checkDownload w dir timeout st init fuel _) as [[[o|e] c'] t];
      reflexivity.
Qed.

(** ** The function and the relation agree *)

Lemma checkDownload_polls w dir timeout st init fuel :
  forall c r c' t,
    checkDownload w dir timeout st init fuel c = (r, c', t) ->
    polls w dir timeout st init c r c' t.
Proof.
  induction fuel as [|fuel IH]; intros c r c' t H.
  - inversion H; subst. apply polls_pending.
  - rewrite checkDownload_S in H.
    destruct (readdirSync_of (w (seq c)) dir) as [l|e] eqn:Hl.
    2:{ inversion H; subst. now apply polls_list_fail. }
    destruct (newFiles init l) as [|n rest] eqn:Hn.
    + destruct (now c - st <? timeout) eqn:Ht.
      * apply Z.ltb_lt in Ht.
        destruct (checkDownload w dir timeout st init fuel _)
          as [[r1 c1] t1] eqn:E.
        inversion H; subst. apply IH in E.
        now apply polls_wait.
      * apply Z.ltb_ge in Ht. inversion H; subst.
        now apply polls_timed_out.
    + destruct (statSync_size_of (w (S (seq c))) (path_join dir n))
        as [sz|e] eqn:H1.
      2:{ inversion H; subst. now apply polls_before_fail with rest. }
      destruct (statSync_size_of (w (S (S (seq c)))) (path_join dir n))
        as [sz'|e] eqn:H2.
      2:{ inversion H; subst. now apply polls_after_fail with rest. }
      destruct (sz =? sz') eqn:Hs.
      * apply Z.eqb_eq in Hs. subst sz'. inversion H; subst.
        now apply polls_done with rest.
      * apply Z.eqb_neq in Hs.
        destruct (checkDownload w dir timeout st init fuel _)
          as [[r1 c1] t1] eqn:E.
        inversion H; subst. apply IH in E.
        now apply polls_changed with rest.
Qed.

Lemma waitForDownload_eq w dir timeout fuel c :
  waitForDownload w dir timeout fuel c =
  match readdirSync_of (w (seq c)) dir with
  | Throw e => (Rejected e, called 1 c, [FsReaddir dir (now c) (Throw e)])
  | Ok init =>
      match checkDownload w dir timeout (now c) init fuel (called 1 c) with
      | (r, c', t) => (settle r, c', FsReaddir dir (now c) (Ok init) :: t)
      end
  end.
Proof.
  unfold waitForDownload. unfold_M. cbn [now seq].
  destruct (readdirSync_of (w (seq c)) dir) as [init|e]; [|reflexivity].
  unfold called. cbn [Nat.add].
  destruct (checkDownload w dir timeout (now c) init fuel _) as [[[o|e] c'] t];
    reflexivity.
Qed.

(** ** Strings and lists *)

Lemma append_inj_l (a b c : string) : a +:+ b = a +:+ c -> b = c.
Proof.
  induction a as [|ch a IH]; simpl; intros H.
  - exact H.
  - inversion H. auto.
Qed.

Lemma path_join_inj dir n m : path_join dir n = path_join dir m -> n = m.
Proof.
  unfold path_join. intros H.
  apply append_inj_l in H. now apply (append_inj_l "/") in H.
Qed.

Lemma includes_In l x : includes l x = true <-> In x l.
Proof.
  unfold includes. rewrite existsb_exists. split.
  - intros [y [Hy He]]. apply String.eqb_eq in He. now subst.
  - intros H. exists x. split; [exact H|apply String.eqb_refl].
Qed.

Lemma newFiles_In init l n : In n (newFiles init l) <-> In n l /\ ~ In n init.
Proof.
  unfold newFiles. rewrite filter_In, negb_true_iff.
  pose proof (includes_In init n) as H.
  destruct (includes init n); intuition congruence.
Qed.

Lemma newFiles_nil init l : (forall x, In x l -> In x init) -> newFiles init l = [].
Proof.
  intros H. destruct (newFiles init l) as [|n rest] eqn:E; [reflexivity|].
  assert (Hn : In n (newFiles init l)) by (rewrite E; now left).
  apply newFiles_In in Hn. destruct Hn as [H1 H2]. now apply H in H1.
Qed.

(** The head of [newFiles] is the first entry of the listing that the
    baseline lacks. *)
Lemma newFiles_head init l n rest :
  newFiles init l = n :: rest ->
  exists before behind,
    l = before ++ n :: behind /\
    (forall x, In x before -> In x init) /\ ~ In n init.
Proof.
  unfold newFiles. induction l as [|a l IH]; simpl; intros H; [discriminate|].
  destruct (includes init a) eqn:Ha; simpl in H.
  - destruct (IH H) as [before [behind [E [Hb Hn]]]].
    exists (a :: before), behind. subst l. split; [reflexivity|].
    split; [|exact Hn].
    intros x [<-|Hx]; [now apply includes_In|auto].
  - inversion H; subst. exists [], l. split; [reflexivity|].
    split; [intros x []|].
    rewrite <- includes_In, Ha. discriminate.
Qed.

Lemma newFiles_first init before n behind :
  (forall x, In x before -> In x init) ->
  ~ In n init ->
  newFiles init (before ++ n :: behind) = n :: newFiles init behind.
Proof.
  intros Hb Hn. unfold newFiles. rewrite filter_app.
  fold (newFiles init before). rewrite (newFiles_nil init before Hb).
  simpl. destruct (includes init n) eqn:E; [|reflexivity].
  apply includes_In in E. contradiction.
Qed.

Lemma last_listing_app t t' :
  last_listing (t ++ t') =
  match last_listing t' with
  | Some l => Some l
  | None => last_listing t
  end.
Proof.
  induction t as [|a t IH]; simpl.
  - now destruct (last_listing t').
  - rewrite IH. now destruct (last_listing t').
Qed.

Lemma in_timer_fulfilled r v : in_timer r = Ok (Fulfilled v) -> r = Ok (Fulfilled v).
Proof. destruct r; simpl; [auto|discriminate]. Qed.


(** ** What every run of the polling loop looks like *)

(** Take a trace equation [a :: t = pre ++ ev :: post] apart. *)
Ltac peel :=
  match goal with
  | H : [] = ?pre ++ _ :: _ |- _ => destruct pre; discriminate H
  | H : _ :: _ = ?pre ++ _ :: _ |- _ =>
      destruct pre as [|? pre]; simpl in H; inversion H; subst; clear H
  end.

Section PollFacts.
Variable w : world.
Variable dir : string.
Variable timeout : Z.
Variable st : Z.
Variable init : list string.

Abbreviation run_polls := (polls w dir timeout st init).

(** A path is reported right after two equal size reads, 100 ms apart, of
    the first new entry of the listing read just before. *)
Lemma polls_success c r c' t :
  run_polls c r c' t ->
  forall p, r = Ok (Fulfilled (Some p)) ->
  exists pre l n rest tm sz,
    t = pre ++ [FsReaddir dir tm (Ok l);
                FsStat p tm (Ok sz);
                FsStat p (tm + 100) (Ok sz);
                ConsoleLog ("Download completed: " +:+ n)] /\
    newFiles init l = n :: rest /\ p = path_join dir n.
Proof.
  induction 1; intros p E; try discriminate.
  - apply in_timer_fulfilled in E.
    destruct (IHpolls p E) as (pre & l' & n & rest & tm & sz & Ht & Hn & Hp).
    exists (FsReaddir dir (now c) (Ok l) :: pre), l', n, rest, tm, sz.
    subst t. auto.
  - inversion E; subst. exists [], l, n, rest, (now c), sz. auto.
  - apply in_timer_fulfilled in E.
    destruct (IHpolls p E) as (pre & l' & n' & rest' & tm & sz0 & Ht & Hn & Hp).
    exists (FsReaddir dir (now c) (Ok l)
            :: FsStat (path_join dir n) (now c) (Ok sz)
            :: FsStat (path_join dir n) (now c + 100) (Ok sz') :: pre),
      l', n', rest', tm, sz0.
    subst t. auto.
Qed.

(** The timeout signal is given right after a listing without new
    entries, at a moment when the timeout has been reached. *)
Lemma polls_null c r c' t :
  run_polls c r c' t ->
  r = Ok (Fulfilled None) ->
  exists pre l,
    t = pre ++ [FsReaddir dir (now c') (Ok l);
                ConsoleLog "Download timed out"] /\
    newFiles init l = [] /\ timeout <= now c' - st.
Proof.
  induction 1; intros E; try discriminate.
  - exists [], l. auto.
  - apply in_timer_fulfilled in E.
    destruct (IHpolls E) as (pre & l' & Ht & Hn & Hd).
    exists (FsReaddir dir (now c) (Ok l) :: pre), l'. subst t. auto.
  - apply in_timer_fulfilled in E.
    destruct (IHpolls E) as (pre & l' & Ht & Hn & Hd).
    exists (FsReaddir dir (now c) (Ok l)
            :: FsStat (path_join dir n) (now c) (Ok sz)
            :: FsStat (path_join dir n) (now c + 100) (Ok sz') :: pre), l'.
    subst t. auto.
Qed.

(** An [fs] call that throws is the last thing the loop does, and the
    loop ends with that exception. *)
Lemma polls_failure c r c' t :
  run_polls c r c' t ->
  forall pre ev post e,
    t = pre ++ ev :: post -> failure ev = Some e ->
    post = [] /\ (r = Throw e \/ r = Ok (Uncaught e)).
Proof.
  induction 1; intros pre ev post e0 Ht Hf; repeat peel; simpl in Hf;
    try discriminate;
    try (inversion Hf; subst; auto; fail).
  all: destruct (IHpolls _ _ _ _ eq_refl Hf) as [Hp [->| ->]]; simpl; auto.
Qed.

(** The loop logs when it resolves the promise, and only then. *)
Lemma polls_log c r c' t :
  run_polls c r c' t ->
  forall pre msg post,
    t = pre ++ ConsoleLog msg :: post ->
    exists v, r = Ok (Fulfilled v).
Proof.
  induction 1; intros pre msg post Ht; repeat peel; eauto;
    destruct (IHpolls _ _ _ eq_refl) as [v ->]; simpl; eauto.
Qed.

(** The loop lists [dir], reads sizes inside it and logs; nothing else. *)
Lemma polls_events c r c' t :
  run_polls c r c' t -> Forall (watcher_event dir) t.
Proof.
  induction 1; repeat constructor; simpl; eauto.
Qed.

(** Sizes are read of entries the baseline lacks only. *)
Lemma polls_stat_new c r c' t :
  run_polls c r c' t ->
  forall p tm r0, In (FsStat p tm r0) t ->
  exists n, p = path_join dir n /\ ~ In n init.
Proof.
  assert (Hhead : forall l n rest, newFiles init l = n :: rest -> ~ In n init).
  { intros l n rest E.
    assert (Hn : In n (newFiles init l)) by (rewrite E; now left).
    now apply newFiles_In in Hn. }
  induction 1; intros p tm r0 Hin; simpl in Hin;
    repeat match goal with
      | H : _ \/ _ |- _ => destruct H as [H|H]
      | H : False |- _ => destruct H
      | H : FsReaddir _ _ _ = FsStat _ _ _ |- _ => discriminate H
      | H : ConsoleLog _ = FsStat _ _ _ |- _ => discriminate H
      | H : FsStat _ _ _ = FsStat _ _ _ |- _ => inversion H; subst; clear H
      end;
    eauto.
Qed.

(** Whenever a listing has new entries, the next call reads the size of
    the first of them. *)
Lemma polls_candidate c r c' t :
  run_polls c r c' t ->
  forall pre p l tm post n rest,
    t = pre ++ FsReaddir p tm (Ok l) :: post ->
    newFiles init l = n :: rest ->
    exists r0 post', post = FsStat (path_join dir n) tm r0 :: post'.
Proof.
  induction 1; intros pre p0 l0 tm post n0 rest0 Ht Hn; repeat peel;
    try congruence;
    try (assert (E : n :: rest = n0 :: rest0) by congruence;
         inversion E; subst; eauto; fail);
    eauto.
Qed.

(** While listings succeed and show nothing new, the loop neither throws
    nor reports a path. *)
Lemma polls_nothing_new c r c' t :
  run_polls c r c' t ->
  (forall i, (seq c <= i)%nat ->
     exists l, readdirSync_of (w i) dir = Ok l /\ newFiles init l = []) ->
  r = Ok Pending \/ r = Ok (Fulfilled None).
Proof.
  induction 1; intros Hq; auto;
    try (destruct (Hq (seq c) (le_n _)) as (l0 & E1 & E2); congruence).
  destruct IHpolls as [->| ->]; simpl; auto.
  intros i Hi. apply Hq. simpl in Hi. lia.
Qed.
End PollFacts.

(** ** Sessions in which nothing new is ever listed *)

Lemma nothing_new_newFiles w dir init from :
  nothing_new w dir init from ->
  forall i, (from <= i)%nat ->
    exists l, readdirSync_of (w i) dir = Ok l /\ newFiles init l = [].
Proof.
  intros H i Hi. destruct (H i Hi) as (l & E & Hl).
  exists l. split; [exact E|now apply newFiles_nil].
Qed.

(** With [k] polls of 100 ms left to the deadline, [S k] units of fuel
    reach the timeout signal, less than one interval after the deadline. *)
Lemma checkDownload_times_out w dir timeout st init :
  forall k c,
    nothing_new w dir init (seq c) ->
    timeout - (now c - st) <= 100 * Z.of_nat k ->
    exists c' t,
      checkDownload w dir timeout st init (S k) c = (Ok (Fulfilled None), c', t) /\
      timeout <= now c' - st /\
      (now c' = now c \/ now c' - st < timeout + 100).
Proof.
  induction k as [|k IH]; intros c Hq Hk.
  - rewrite checkDownload_S.
    destruct (nothing_new_newFiles _ _ _ _ Hq (seq c) (le_n _)) as (l & -> & ->).
    destruct (now c - st <? timeout) eqn:Ht.
    + apply Z.ltb_lt in Ht. lia.
    + apply Z.ltb_ge in Ht. eexists _, _. split; [reflexivity|]. simpl. auto.
  - rewrite checkDownload_S.
    destruct (nothing_new_newFiles _ _ _ _ Hq (seq c) (le_n _)) as (l & -> & ->).
    destruct (now c - st <? timeout) eqn:Ht.
    + apply Z.ltb_lt in Ht.
      destruct (IH (after 1 100 c)) as (c' & t & E & Hd & Hb).
      * intros i Hi. apply Hq. simpl in Hi. lia.
      * unfold after. cbn [now]. rewrite Nat2Z.inj_succ in Hk. lia.
      * rewrite E. eexists _, _. split; [reflexivity|].
        split; [exact Hd|]. right. simpl in Hb. lia.
    + apply Z.ltb_ge in Ht. eexists _, _. split; [reflexivity|]. simpl. auto.
Qed.

Lemma waitForDownload_times_out w dir timeout c init :
  readdirSync_of (w (seq c)) dir = Ok init ->
  nothing_new w dir init (S (seq c)) ->
  exists fuel c' t,
    waitForDownload w dir timeout fuel c = (Fulfilled None, c', t) /\
    timeout <= now c' - now c /\
    (now c' = now c \/ now c' - now c < timeout + 100).
Proof.
  intros Hb Hq.
  destruct (checkDownload_times_out w dir timeout (now c) init
              (Z.to_nat timeout) (called 1 c)) as (c' & t & E & Hd & Hl).
  - exact Hq.
  - unfold called. cbn [now]. lia.
  - exists (S (Z.to_nat timeout)), c', (FsReaddir dir (now c) (Ok init) :: t).
    rewrite waitForDownload_eq, Hb, E. simpl in *. auto.
Qed.

(** The run of a whole call, read through the relation. *)
Lemma waitForDownload_polls w dir timeout fuel c o c' t init :
  readdirSync_of (w (seq c)) dir = Ok init ->
  waitForDownload w dir timeout fuel c = (o, c', t) ->
  exists r t',
    polls w dir timeout (now c) init (called 1 c) r c' t' /\
    o = settle r /\ t = FsReaddir dir (now c) (Ok init) :: t'.
Proof.
  intros Hb H. rewrite waitForDownload_eq, Hb in H.
  destruct (checkDownload w dir timeout (now c) init fuel (called 1 c))
    as [[r c1] t1] eqn:E.
  inversion H; subst. apply checkDownload_polls in E. eauto.
Qed.

Lemma settle_fulfilled r v : settle r = Fulfilled v -> r = Ok (Fulfilled v).
Proof. destruct r; simpl; [congruence|discriminate]. Qed.

(** ** C1: the time a watch may take *)

(** On [growing] the loop finds the candidate in every poll and its two
    size reads differ, so no amount of fuel ends it. *)
Lemma growing_keeps_polling dir timeout st :
  forall fuel c, (1 <= seq c)%nat ->
    exists c' t,
      checkDownload growing dir timeout st ["old.json"] fuel c
      = (Ok Pending, c', t) /\ now c' = now c + 100 * Z.of_nat fuel.
Proof.
  induction fuel as [|fuel IH]; intros c Hc.
  - exists c, []. split; [reflexivity|]. simpl. lia.
  - rewrite checkDownload_S.
    destruct (seq c) as [|k] eqn:Hk; [lia|].
    cbn [growing snap readdirSync_of statSync_size_of].
    change (newFiles ["old.json"] ["old.json"; "out.json"]) with ["out.json"].
    replace (Z.of_nat (S (S k)) =? Z.of_nat (S (S (S k)))) with false
      by (symmetry; apply Z.eqb_neq; lia).
    destruct (IH (after 3 100 c)) as (c' & t & E & Hn); [simpl; lia|].
    rewrite E. eexists _, _. split; [reflexivity|].
    rewrite Hn. unfold after. cbn [now]. lia.
Qed.

(** C1, as stated, fails: the download of [growing] exists from the first
    poll on and never stops changing; with a timeout of 300 ms the call is
    still polling after 500 ms, and it never returns, with the timeout
    signal or otherwise. *)
Lemma watch_growing_file_outlasts_timeout :
  outcome_of (waitForDownload growing "/app/downloads" 300 5 start) = Pending /\
  now (cfg_of (waitForDownload growing "/app/downloads" 300 5 start))
  - now start = 500 /\
  ~ (exists fuel,
       outcome_of (waitForDownload growing "/app/downloads" 300 fuel start)
       <> Pending).
Proof.
  split; [vm_compute; reflexivity|].
  split; [vm_compute; reflexivity|].
  intros (fuel & H). apply H.
  rewrite waitForDownload_eq.
  cbn [growing start seq snap readdirSync_of].
  destruct (growing_keeps_polling "/app/downloads" 300 (now start) fuel
              (called 1 start)) as (c1 & t1 & E & _); [simpl; lia|].
  change (now {| now := 0; seq := 0 |}) with (now start).
  change {| now := 0; seq := 0 |} with start.
  rewrite E. reflexivity.
Qed.

(** C1 (amended): the deadline is consulted only by a poll that lists no
    new entry.  A call whose polls never list an entry beyond the baseline
    returns null at the first poll with [timeout <= elapsed], less than one
    poll interval after the deadline; and whenever a call returns null, it
    does so right after a listing without new entries, the deadline
    reached. *)
Theorem watch_deadline_only_without_candidate w dir timeout c :
  (forall init,
     0 <= timeout ->
     readdirSync_of (w (seq c)) dir = Ok init ->
     nothing_new w dir init (S (seq c)) ->
     exists fuel c' t,
       waitForDownload w dir timeout fuel c = (Fulfilled None, c', t) /\
       timeout <= now c' - now c < timeout + pollInterval) /\
  (forall fuel c' t,
     waitForDownload w dir timeout fuel c = (Fulfilled None, c', t) ->
     exists init pre l,
       readdirSync_of (w (seq c)) dir = Ok init /\
       t = pre ++ [FsReaddir dir (now c') (Ok l);
                   ConsoleLog "Download timed out"] /\
       newFiles init l = [] /\
       timeout <= now c' - now c).
Proof.
  split.
  - intros init H0 Hb Hq.
    destruct (waitForDownload_times_out w dir timeout c init Hb Hq)
      as (fuel & c' & t & E & Hd & Hl).
    exists fuel, c', t. split; [exact E|]. unfold pollInterval. lia.
  - intros fuel c' t H.
    destruct (readdirSync_of (w (seq c)) dir) as [init|e] eqn:Hb.
    2:{ rewrite waitForDownload_eq, Hb in H. discriminate H. }
    destruct (waitForDownload_polls _ _ _ _ _ _ _ _ _ Hb H)
      as (r & t' & P & Ho & Ht).
    symmetry in Ho. apply settle_fulfilled in Ho.
    destruct (polls_null _ _ _ _ _ _ _ _ _ P Ho) as (pre & l & E & Hn & Hd).
    exists init, (FsReaddir dir (now c) (Ok init) :: pre), l.
    subst t t'. auto.
Qed.

Lemma watch_deadline_only_without_candidate_witness :
  exists fuel c' t,
    waitForDownload empty "/app/downloads" 300 fuel start
    = (Fulfilled None, c', t) /\
    300 <= now c' - now start < 300 + pollInterval.
Proof.
  apply (proj1 (watch_deadline_only_without_candidate
                  empty "/app/downloads" 300 start) []).
  - lia.
  - reflexivity.
  - intros i Hi. exists []. split; [reflexivity|]. intros x [].
Defined.

(** ** C2: what the orchestration does with the timeout signal *)

(** C2, as stated, fails: nothing but an uncaught error sets an exit code.
    On [quiet] the download never comes, the watcher of the first script
    resolves with null after 30 s, the browser and the server are closed,
    the failure is reported (the last four events, latest first), and the
    process ends with exit code 0. *)
Lemma timeout_run_exits_with_code_zero :
  outcome_of (waitForDownload quiet "/app/downloads" default_timeout 301
                {| now := 0; seq := 1 |}) = Fulfilled None /\
  firstn 4 (rev (snd (run quiet all_ok no_stats "/app" Part000 301 start))) =
  [ConsoleLog "Server closed.";
   ConsoleError "Failed to download JSON file to: /app/downloads";
   ServerClose; Call BrowserClose] /\
  fst (run quiet all_ok no_stats "/app" Part000 301 start) = Some 0.
Proof.
  repeat split; vm_compute; reflexivity.
Qed.

Section ExitCode.
Variable w : world.
Variable answer : step -> result string.
Variable stats_field : string -> string.
Variable dirname : string.

Abbreviation run_script := (run w answer stats_field dirname).
Abbreviation run_main := (main w answer stats_field dirname).

(** The main function and the process, once the export has been
    triggered and the watcher has settled. *)
Lemma run_after_download sc fuel c dp c1 t1 o c2 t2 :
  before_download w answer stats_field dirname sc c = (Ok dp, c1, t1) ->
  waitForDownload w dp default_timeout fuel c1 = (o, c2, t2) ->
  run_script sc fuel c =
  match o with
  | Fulfilled v =>
      match answer BrowserClose with
      | Ok _ =>
          (Some 0,
           t1 ++ t2 ++
           [Call BrowserClose; ServerClose;
            if truthy v then
              ConsoleLog ("JSON file successfully downloaded to: "
                          +:+ match v with Some p => p | None => "" end)
            else
              ConsoleError ("Failed to download JSON file to: " +:+ dp);
            ConsoleLog "Server closed."])
      | Throw e =>
          (Some 1,
           t1 ++ t2 ++
           [Call BrowserClose;
            ConsoleError ("Error occurred: " +:+ show_error e);
            ProcessExit 1])
      end
  | Rejected e =>
      (Some 1,
       t1 ++ t2 ++
       [ConsoleError ("Error occurred: " +:+ show_error e); ProcessExit 1])
  | Uncaught e => (Some 1, t1 ++ t2)
  | Pending => (None, t1 ++ t2)
  end.
Proof.
  intros Hb Hw. unfold run, main.
  unfold bind at 1. rewrite Hb. unfold await_promise. rewrite Hw.
  destruct o as [v|e|e|]; try reflexivity.
  - unfold after_download, await_call. unfold_M.
    destruct (answer BrowserClose) as [x|e]; cbn.
    + destruct (truthy v); cbn; reflexivity.
    + rewrite <- !app_assoc. reflexivity.
  - rewrite <- !app_assoc. reflexivity.
Qed.

Lemma run_exit_code sc fuel c :
  (fst (run_script sc fuel c) = Some 0 <->
   outcome_of (run_main sc fuel c) = Ok Completed) /\
  (fst (run_script sc fuel c) = Some 1 <->
   exists e, outcome_of (run_main sc fuel c) = Throw e \/
             outcome_of (run_main sc fuel c) = Ok (Crashed e)) /\
  (fst (run_script sc fuel c) = None <->
   outcome_of (run_main sc fuel c) = Ok Hung).
Proof.
  unfold run, outcome_of.
  destruct (run_main sc fuel c) as [[[[|e|]|e] c'] t]; cbn;
    repeat split; intros H; try discriminate H; try reflexivity;
    try match goal with
        | H : exists _, _ |- _ => destruct H as [? [H|H]]; discriminate H
        end;
    eauto.
Qed.
End ExitCode.

(** C2 (amended): a null from the watcher is not fatal.  The script closes
    the browser and the server and reports the failure on the error stream;
    the main function then completes and the process ends with exit code 0,
    as on success.  The exit code is 1 exactly when an error stays
    uncaught: a rejection of the main function (here, a failing
    [browser.close()]) or an exception escaping a timer callback. *)
Theorem timeout_is_reported_not_fatal
    w answer stats_field dirname sc fuel c dp c1 t1 c2 t2 :
  before_download w answer stats_field dirname sc c = (Ok dp, c1, t1) ->
  waitForDownload w dp default_timeout fuel c1 = (Fulfilled None, c2, t2) ->
  run w answer stats_field dirname sc fuel c =
  match answer BrowserClose with
  | Ok _ =>
      (Some 0,
       t1 ++ t2 ++
       [Call BrowserClose; ServerClose;
        ConsoleError ("Failed to download JSON file to: " +:+ dp);
        ConsoleLog "Server closed."])
  | Throw e =>
      (Some 1,
       t1 ++ t2 ++
       [Call BrowserClose;
        ConsoleError ("Error occurred: " +:+ show_error e);
        ProcessExit 1])
  end /\
  (forall sc' fuel' c0,
     (fst (run w answer stats_field dirname sc' fuel' c0) = Some 0 <->
      outcome_of (main w answer stats_field dirname sc' fuel' c0) = Ok Completed) /\
     (fst (run w answer stats_field dirname sc' fuel' c0) = Some 1 <->
      exists e,
        outcome_of (main w answer stats_field dirname sc' fuel' c0) = Throw e \/
        outcome_of (main w answer stats_field dirname sc' fuel' c0)
        = Ok (Crashed e))).
Proof.
  intros Hb Hw. split.
  - rewrite (run_after_download _ _ _ _ _ _ _ _ _ _ _ _ _ Hb Hw).
    destruct (answer BrowserClose); reflexivity.
  - intros sc' fuel' c0.
    destruct (run_exit_code w answer stats_field dirname sc' fuel' c0)
      as (H0 & H1 & _).
    split; assumption.
Qed.

Lemma timeout_is_reported_not_fatal_witness :
  fst (run empty all_ok no_stats "/app" EntryCjs 301 start) = Some 0 /\
  firstn 4 (rev (snd (run empty all_ok no_stats "/app" EntryCjs 301 start))) =
  [ConsoleLog "Server closed.";
   ConsoleError "Failed to download JSON file to: /app/downloads";
   ServerClose; Call BrowserClose].
Proof.
  pose (b := before_download empty all_ok no_stats "/app" EntryCjs start).
  pose (d := waitForDownload empty "/app/downloads" default_timeout 301
               (snd (fst b))).
  assert (Hb : before_download empty all_ok no_stats "/app" EntryCjs start
               = (Ok "/app/downloads", snd (fst b), snd b))
    by (vm_compute; reflexivity).
  assert (Hd : waitForDownload empty "/app/downloads" default_timeout 301
                 (snd (fst b))
               = (Fulfilled None, snd (fst d), snd d))
    by (vm_compute; reflexivity).
  rewrite (proj1 (timeout_is_reported_not_fatal
                    empty all_ok no_stats "/app" EntryCjs 301 start
                    "/app/downloads" _ _ _ _ Hb Hd)).
  cbn [all_ok fst snd]. split; [reflexivity|].
  rewrite !rev_app_distr. reflexivity.
Defined.

(** ** C3, C5, C9: which path a watch reports *)

(** The spec's scenario: the file written at 150 ms is seen by the poll at
    200 ms and reported at 300 ms. *)
Example one_shot_reported :
  waitForDownload one_shot "/app/downloads" default_timeout 3 start =
  (Fulfilled (Some "/app/downloads/out.json"), {| now := 300; seq := 6 |},
   [FsReaddir "/app/downloads" 0 (Ok []);
    FsReaddir "/app/downloads" 0 (Ok []);
    FsReaddir "/app/downloads" 100 (Ok []);
    FsReaddir "/app/downloads" 200 (Ok ["out.json"]);
    FsStat "/app/downloads/out.json" 200 (Ok 500);
    FsStat "/app/downloads/out.json" 300 (Ok 500);
    ConsoleLog "Download completed: out.json"]).
Proof. vm_compute. reflexivity. Qed.

(** A call that reports a path, taken apart: the baseline it read, and the
    last four events of its trace. *)
Lemma waitForDownload_success w dir timeout fuel c c' t p :
  waitForDownload w dir timeout fuel c = (Fulfilled (Some p), c', t) ->
  exists init pre l n rest tm sz,
    readdirSync_of (w (seq c)) dir = Ok init /\
    t = FsReaddir dir (now c) (Ok init) :: pre ++
        [FsReaddir dir tm (Ok l);
         FsStat p tm (Ok sz);
         FsStat p (tm + 100) (Ok sz);
         ConsoleLog ("Download completed: " +:+ n)] /\
    newFiles init l = n :: rest /\ p = path_join dir n.
Proof.
  intros H.
  destruct (readdirSync_of (w (seq c)) dir) as [init|e] eqn:Hb.
  2:{ rewrite waitForDownload_eq, Hb in H. discriminate H. }
  destruct (waitForDownload_polls _ _ _ _ _ _ _ _ _ Hb H)
    as (r & t' & P & Ho & Ht).
  symmetry in Ho. apply settle_fulfilled in Ho.
  destruct (polls_success _ _ _ _ _ _ _ _ _ P p Ho)
    as (pre & l & n & rest & tm & sz & E & Hn & Hp).
  exists init, pre, l, n, rest, tm, sz. subst t t'. auto.
Qed.

(** C3: a path is returned only after the size of that very file was read
    twice, one poll interval apart, with the same answer; these two reads
    are the last two [fs] calls of the watch. *)
Theorem reported_only_after_two_equal_sizes w dir timeout fuel c c' t p :
  waitForDownload w dir timeout fuel c = (Fulfilled (Some p), c', t) ->
  exists pre tm sz msg,
    t = pre ++ [FsStat p tm (Ok sz);
                FsStat p (tm + pollInterval) (Ok sz);
                ConsoleLog msg].
Proof.
  intros H.
  destruct (waitForDownload_success _ _ _ _ _ _ _ _ H)
    as (init & pre & l & n & rest & tm & sz & Hb & Ht & Hn & Hp).
  exists (FsReaddir dir (now c) (Ok init) :: pre ++ [FsReaddir dir tm (Ok l)]),
    tm, sz, ("Download completed: " +:+ n).
  subst t. unfold pollInterval. cbn [app]. rewrite <- app_assoc. reflexivity.
Qed.

Lemma reported_only_after_two_equal_sizes_witness :
  exists pre tm sz msg,
    trace_of (waitForDownload one_shot "/app/downloads" default_timeout 3 start)
    = pre ++ [FsStat "/app/downloads/out.json" tm (Ok sz);
              FsStat "/app/downloads/out.json" (tm + pollInterval) (Ok sz);
              ConsoleLog msg].
Proof.
  pose (d := waitForDownload one_shot "/app/downloads" default_timeout 3 start).
  assert (Hd : waitForDownload one_shot "/app/downloads" default_timeout 3 start
               = (Fulfilled (Some "/app/downloads/out.json"), cfg_of d, trace_of d))
    by (vm_compute; reflexivity).
  exact (reported_only_after_two_equal_sizes
           one_shot "/app/downloads" default_timeout 3 start _ _ _ Hd).
Defined.

(** C5: whenever a listing of the watch has an entry the baseline lacks,
    the next call reads the size of the first such entry in listing order,
    joined to the watched directory; and a path that is returned is the
    watched directory joined with the first entry, in listing order, of one
    listing of the watch that is not in the baseline. *)
Theorem candidate_is_first_new_entry w dir timeout fuel c o c' t init :
  readdirSync_of (w (seq c)) dir = Ok init ->
  waitForDownload w dir timeout fuel c = (o, c', t) ->
  (forall pre tm before n behind post,
     t = pre ++ FsReaddir dir tm (Ok (before ++ n :: behind)) :: post ->
     (forall x, In x before -> In x init) ->
     ~ In n init ->
     exists r post', post = FsStat (path_join dir n) tm r :: post') /\
  (forall p,
     o = Fulfilled (Some p) ->
     exists tm before n behind,
       In (FsReaddir dir tm (Ok (before ++ n :: behind))) t /\
       (forall x, In x before -> In x init) /\
       ~ In n init /\
       p = path_join dir n).
Proof.
  intros Hb H. split.
  - intros pre tm before n behind post Ht Hbefore Hnew.
    pose proof (newFiles_first init before n behind Hbefore Hnew) as Hn.
    destruct (waitForDownload_polls _ _ _ _ _ _ _ _ _ Hb H)
      as (r & t' & P & Ho & Ht').
    subst t. destruct pre as [|ev pre]; simpl in Ht'; inversion Ht'; subst.
    + rewrite newFiles_nil in Hn by auto. discriminate Hn.
    + exact (polls_candidate _ _ _ _ _ _ _ _ _ P _ _ _ _ _ _ _ eq_refl Hn).
  - intros p ->.
    destruct (waitForDownload_success _ _ _ _ _ _ _ _ H)
      as (init' & pre & l & n & rest & tm & sz & Hb' & Ht & Hn & Hp).
    assert (init' = init) by congruence. subst init'.
    destruct (newFiles_head _ _ _ _ Hn) as (before & behind & El & Hbefore & Hnew).
    exists tm, before, n, behind. subst t l.
    repeat split; auto.
    right. apply in_or_app. right. now left.
Qed.

Lemma candidate_is_first_new_entry_witness :
  exists tm before n behind,
    In (FsReaddir "/app/downloads" tm (Ok (before ++ n :: behind)))
       (trace_of (waitForDownload one_shot "/app/downloads" default_timeout 3 start)) /\
    (forall x, In x before -> In x []) /\
    ~ In n [] /\
    "/app/downloads/out.json" = path_join "/app/downloads" n.
Proof.
  pose (d := waitForDownload one_shot "/app/downloads" default_timeout 3 start).
  assert (Hd : waitForDownload one_shot "/app/downloads" default_timeout 3 start
               = (Fulfilled (Some "/app/downloads/out.json"), cfg_of d, trace_of d))
    by (vm_compute; reflexivity).
  exact (proj2 (candidate_is_first_new_entry
                  one_shot "/app/downloads" default_timeout 3 start _ _ _ []
                  eq_refl Hd) _ eq_refl).
Defined.

Lemma waitForDownload_skips_baseline w dir timeout fuel c init n :
  readdirSync_of (w (seq c)) dir = Ok init ->
  In n init ->
  outcome_of (waitForDownload w dir timeout fuel c)
  <> Fulfilled (Some (path_join dir n)) /\
  forall tm r,
    ~ In (FsStat (path_join dir n) tm r)
         (trace_of (waitForDownload w dir timeout fuel c)).
Proof.
  intros Hb Hin.
  destruct (waitForDownload w dir timeout fuel c) as [[o c'] t] eqn:H.
  unfold outcome_of, trace_of. cbn [fst snd].
  destruct (waitForDownload_polls _ _ _ _ _ _ _ _ _ Hb H)
    as (r & t' & P & Ho & Ht).
  assert (Hstat : forall tm r0, ~ In (FsStat (path_join dir n) tm r0) t).
  { intros tm r0 Hi. subst t. destruct Hi as [Hi|Hi]; [discriminate Hi|].
    destruct (polls_stat_new _ _ _ _ _ _ _ _ _ P _ _ _ Hi) as (m & Hm & Hnew).
    apply path_join_inj in Hm. now subst m. }
  split; [|exact Hstat].
  intros E. rewrite E in H.
  destruct (waitForDownload_success _ _ _ _ _ _ _ _ H)
    as (init' & pre & l & m & rest & tm & sz & _ & Ht2 & _ & _).
  apply (Hstat tm (Ok sz)). rewrite Ht2.
  right. apply in_or_app. right. right. now left.
Qed.

(** C9: new entries are told by name alone.  An entry whose name is in the
    baseline is never reported, and its size is never even read, whatever
    the file system shows during the watch. *)
Theorem baseline_entry_never_reported w dir timeout fuel c init n :
  readdirSync_of (w (seq c)) dir = Ok init ->
  In n init ->
  outcome_of (waitForDownload w dir timeout fuel c)
  <> Fulfilled (Some (path_join dir n)) /\
  forall tm r,
    ~ In (FsStat (path_join dir n) tm r)
         (trace_of (waitForDownload w dir timeout fuel c)).
Proof.
  exact (waitForDownload_skips_baseline w dir timeout fuel c init n).
Qed.

Lemma baseline_entry_never_reported_witness :
  outcome_of (waitForDownload growing "/app/downloads" 300 7 start)
  <> Fulfilled (Some (path_join "/app/downloads" "old.json")) /\
  forall tm r,
    ~ In (FsStat (path_join "/app/downloads" "old.json") tm r)
         (trace_of (waitForDownload growing "/app/downloads" 300 7 start)).
Proof.
  apply (baseline_entry_never_reported
           growing "/app/downloads" 300 7 start ["old.json"] "old.json").
  - reflexivity.
  - simpl. left. reflexivity.
Defined.

(** ** Fuel *)

(** Once a run has ended, more fuel changes nothing. *)
Lemma checkDownload_more_fuel w dir timeout st init :
  forall fuel c r c' t,
    checkDownload w dir timeout st init fuel c = (r, c', t) ->
    r <> Ok Pending ->
    forall fuel', (fuel <= fuel')%nat ->
      checkDownload w dir timeout st init fuel' c = (r, c', t).
Proof.
  induction fuel as [|fuel IH]; intros c r c' t H Hr fuel' Hle.
  - inversion H; subst. now destruct Hr.
  - destruct fuel' as [|fuel']; [lia|].
    assert (Hle' : (fuel <= fuel')%nat) by lia.
    rewrite checkDownload_S in *.
    destruct (readdirSync_of (w (seq c)) dir) as [l|e]; [|exact H].
    destruct (newFiles init l) as [|n rest].
    + destruct (now c - st <? timeout); [|exact H].
      destruct (checkDownload w dir timeout st init fuel (after 1 100 c))
        as [[r1 c1] t1] eqn:E.
      inversion H; subst.
      rewrite (IH _ _ _ _ E) with (fuel' := fuel'); auto.
      intros ->. now apply Hr.
    + destruct (statSync_size_of (w (S (seq c))) (path_join dir n));
        [|exact H].
      destruct (statSync_size_of (w (S (S (seq c)))) (path_join dir n));
        [|exact H].
      destruct (_ =? _); [exact H|].
      destruct (checkDownload w dir timeout st init fuel (after 3 100 c))
        as [[r1 c1] t1] eqn:E.
      inversion H; subst.
      rewrite (IH _ _ _ _ E) with (fuel' := fuel'); auto.
      intros ->. now apply Hr.
Qed.

Lemma waitForDownload_more_fuel w dir timeout fuel c o c' t :
  waitForDownload w dir timeout fuel c = (o, c', t) ->
  o <> Pending ->
  forall fuel', (fuel <= fuel')%nat ->
    waitForDownload w dir timeout fuel' c = (o, c', t).
Proof.
  intros H Ho fuel' Hle. rewrite waitForDownload_eq in *.
  destruct (readdirSync_of (w (seq c)) dir) as [init|e]; [|exact H].
  destruct (checkDownload w dir timeout (now c) init fuel (called 1 c))
    as [[r c1] t1] eqn:E.
  inversion H; subst.
  rewrite (checkDownload_more_fuel _ _ _ _ _ _ _ _ _ _ E) with (fuel' := fuel');
    auto.
  intros ->. now apply Ho.
Qed.

(** ** C4: the timeout signal *)

(** C4, as stated, fails at the boundary: the loop goes on while
    [elapsed < timeout], so null is returned as soon as the elapsed time
    equals the timeout.  In the empty directory of the spec's scenario, with
    a timeout of 300 ms, null comes at 300 ms exactly; with a timeout of 0
    it comes from the first poll, no time elapsed. *)
Lemma null_when_elapsed_equals_timeout :
  (outcome_of (waitForDownload empty "/app/downloads" 300 4 start)
   = Fulfilled None /\
   ~ (300 < now (cfg_of (waitForDownload empty "/app/downloads" 300 4 start))
            - now start)) /\
  (outcome_of (waitForDownload empty "/app/downloads" 0 1 start)
   = Fulfilled None /\
   ~ (0 < now (cfg_of (waitForDownload empty "/app/downloads" 0 1 start))
          - now start)).
Proof.
  repeat split; try (vm_compute; reflexivity);
    vm_compute; intros H; discriminate H.
Qed.

(** C4 (amended): when no entry beyond the baseline is ever listed, the
    watch returns null, given fuel enough, and never fails or reports a
    path; and it returns null only at a poll where the time elapsed since
    the start of the call is at least the timeout. *)
Theorem no_new_entry_gives_null w dir timeout c init :
  readdirSync_of (w (seq c)) dir = Ok init ->
  nothing_new w dir init (S (seq c)) ->
  (exists fuel0,
     forall fuel, (fuel0 <= fuel)%nat ->
       outcome_of (waitForDownload w dir timeout fuel c) = Fulfilled None) /\
  (forall fuel,
     outcome_of (waitForDownload w dir timeout fuel c) = Pending \/
     outcome_of (waitForDownload w dir timeout fuel c) = Fulfilled None) /\
  (forall fuel,
     outcome_of (waitForDownload w dir timeout fuel c) = Fulfilled None ->
     timeout <= now (cfg_of (waitForDownload w dir timeout fuel c)) - now c).
Proof.
  intros Hb Hq. split; [|split].
  - destruct (waitForDownload_times_out w dir timeout c init Hb Hq)
      as (fuel0 & c' & t & E & _).
    exists fuel0. intros fuel Hle.
    rewrite (waitForDownload_more_fuel _ _ _ _ _ _ _ _ E) with (fuel' := fuel);
      [reflexivity|discriminate|exact Hle].
  - intros fuel.
    destruct (waitForDownload w dir timeout fuel c) as [[o c'] t] eqn:H.
    destruct (waitForDownload_polls _ _ _ _ _ _ _ _ _ Hb H)
      as (r & t' & P & Ho & Ht).
    unfold outcome_of. cbn [fst].
    destruct (polls_nothing_new _ _ _ _ _ _ _ _ _ P) as [->| ->];
      [|subst o; auto..].
    intros i Hi. apply (nothing_new_newFiles _ _ _ _ Hq). exact Hi.
  - intros fuel.
    destruct (waitForDownload w dir timeout fuel c) as [[o c'] t] eqn:H.
    unfold outcome_of, cfg_of. cbn [fst snd]. intros ->.
    destruct (waitForDownload_polls _ _ _ _ _ _ _ _ _ Hb H)
      as (r & t' & P & Ho & Ht).
    symmetry in Ho. apply settle_fulfilled in Ho.
    destruct (polls_null _ _ _ _ _ _ _ _ _ P Ho) as (pre & l & _ & _ & Hd).
    exact Hd.
Qed.

Lemma no_new_entry_gives_null_witness :
  (exists fuel0,
     forall fuel, (fuel0 <= fuel)%nat ->
       outcome_of (waitForDownload quiet "/app/downloads" 300 fuel start)
       = Fulfilled None) /\
  (forall fuel,
     outcome_of (waitForDownload quiet "/app/downloads" 300 fuel start) = Pending \/
     outcome_of (waitForDownload quiet "/app/downloads" 300 fuel start)
     = Fulfilled None) /\
  (forall fuel,
     outcome_of (waitForDownload quiet "/app/downloads" 300 fuel start)
     = Fulfilled None ->
     300 <= now (cfg_of (waitForDownload quiet "/app/downloads" 300 fuel start))
            - now start).
Proof.
  apply (no_new_entry_gives_null quiet "/app/downloads" 300 start ["old.json"]).
  - reflexivity.
  - intros i Hi. exists ["old.json"]. split; [reflexivity|]. auto.
Defined.

(** ** C6, C10: failing [fs] calls *)

(** An [fs] call of a watch that throws is its last event, and the watch
    ends with that exception: as a rejection when it was thrown while the
    executor ran, uncaught when a timer callback threw it. *)
Lemma waitForDownload_failure w dir timeout fuel c pre ev post e :
  trace_of (waitForDownload w dir timeout fuel c) = pre ++ ev :: post ->
  failure ev = Some e ->
  post = [] /\
  (outcome_of (waitForDownload w dir timeout fuel c) = Rejected e \/
   outcome_of (waitForDownload w dir timeout fuel c) = Uncaught e).
Proof.
  destruct (waitForDownload w dir timeout fuel c) as [[o c'] t] eqn:H.
  unfold outcome_of, trace_of. cbn [fst snd]. intros Ht Hf.
  destruct (readdirSync_of (w (seq c)) dir) as [init|e0] eqn:Hb.
  - destruct (waitForDownload_polls _ _ _ _ _ _ _ _ _ Hb H)
      as (r & t' & P & Ho & Ht').
    rewrite Ht' in Ht. peel; [discriminate Hf|].
    destruct (polls_failure _ _ _ _ _ _ _ _ _ P _ _ _ _ eq_refl Hf)
      as [Hp [->| ->]]; simpl; auto.
  - rewrite waitForDownload_eq, Hb in H. inversion H; subst.
    repeat peel. simpl in Hf. inversion Hf; subst. auto.
Qed.

(** C6: a failing listing or size read fails the watch with its error and
    is never turned into a timeout.  If the directory cannot be listed at
    the start, the promise is rejected at once.  Whatever call fails later,
    it is the last thing the watch does, and the watch ends with that error
    (rejected, or uncaught from a timer callback).  Either way the script
    stops there: no browser or server close follows, and the process ends
    with exit code 1. *)
Theorem fs_error_fails_the_watch w dir timeout c :
  (forall fuel e,
     readdirSync_of (w (seq c)) dir = Throw e ->
     waitForDownload w dir timeout fuel c
     = (Rejected e, called 1 c, [FsReaddir dir (now c) (Throw e)])) /\
  (forall fuel pre ev post e,
     trace_of (waitForDownload w dir timeout fuel c) = pre ++ ev :: post ->
     failure ev = Some e ->
     post = [] /\
     (outcome_of (waitForDownload w dir timeout fuel c) = Rejected e \/
      outcome_of (waitForDownload w dir timeout fuel c) = Uncaught e)) /\
  (forall answer stats_field dirname sc fuel c0 c1 t1 o c2 t2 e,
     before_download w answer stats_field dirname sc c0 = (Ok dir, c1, t1) ->
     waitForDownload w dir default_timeout fuel c1 = (o, c2, t2) ->
     o = Rejected e \/ o = Uncaught e ->
     run w answer stats_field dirname sc fuel c0 =
     (Some 1,
      t1 ++ t2 ++
      match o with
      | Rejected _ =>
          [ConsoleError ("Error occurred: " +:+ show_error e); ProcessExit 1]
      | _ => []
      end)).
Proof.
  split; [|split].
  - intros fuel e Hb. rewrite waitForDownload_eq, Hb. reflexivity.
  - intros fuel pre ev post e. apply waitForDownload_failure.
  - intros answer stats_field dirname sc fuel c0 c1 t1 o c2 t2 e Hb Hw Ho.
    rewrite (run_after_download _ _ _ _ _ _ _ _ _ _ _ _ _ Hb Hw).
    destruct Ho as [->| ->]; [reflexivity|].
    rewrite app_nil_r. reflexivity.
Qed.

Lemma fs_error_fails_the_watch_witness :
  waitForDownload missing "/app/downloads" default_timeout 5
    {| now := 0; seq := 2 |}
  = (Rejected ENOENT, {| now := 0; seq := 3 |},
     [FsReaddir "/app/downloads" 0 (Throw ENOENT)]) /\
  fst (run missing all_ok no_stats "/app" Part000 5 start) = Some 1.
Proof.
  split.
  - apply (proj1 (fs_error_fails_the_watch missing "/app/downloads"
                    default_timeout {| now := 0; seq := 2 |}) 5%nat ENOENT).
    reflexivity.
  - pose (b := before_download missing all_ok no_stats "/app" Part000 start).
    assert (Hb : before_download missing all_ok no_stats "/app" Part000 start
                 = (Ok "/app/downloads", {| now := 0; seq := 2 |}, trace_of b))
      by (vm_compute; reflexivity).
    rewrite (proj2 (proj2 (fs_error_fails_the_watch missing "/app/downloads"
                             default_timeout start))
               all_ok no_stats "/app" Part000 5%nat start _ _ _ _ _ ENOENT Hb
               (proj1 (fs_error_fails_the_watch missing "/app/downloads"
                         default_timeout {| now := 0; seq := 2 |}) 5%nat ENOENT
                  eq_refl)
               (or_introl eq_refl)).
    reflexivity.
Defined.

(** C10: when the candidate is gone by the time one of its two size reads
    is made, that read throws and the watch ends with its error.  The
    failed read is the last event of the watch, so polling is not resumed
    and no timeout is reported; the path read is the watched directory
    joined with an entry the baseline lacks. *)
Theorem vanished_candidate_fails_the_watch
    w dir timeout fuel c init pre p tm e post :
  readdirSync_of (w (seq c)) dir = Ok init ->
  trace_of (waitForDownload w dir timeout fuel c)
  = pre ++ FsStat p tm (Throw e) :: post ->
  post = [] /\
  (outcome_of (waitForDownload w dir timeout fuel c) = Rejected e \/
   outcome_of (waitForDownload w dir timeout fuel c) = Uncaught e) /\
  outcome_of (waitForDownload w dir timeout fuel c) <> Fulfilled None /\
  ~ In (ConsoleLog "Download timed out")
       (trace_of (waitForDownload w dir timeout fuel c)) /\
  exists n, p = path_join dir n /\ ~ In n init.
Proof.
  intros Hb Ht.
  destruct (waitForDownload_failure w dir timeout fuel c pre _ post e Ht eq_refl)
    as [Hpost Ho].
  split; [exact Hpost|]. split; [exact Ho|].
  split; [destruct Ho as [Ho|Ho]; rewrite Ho; discriminate|].
  destruct (waitForDownload w dir timeout fuel c) as [[o c'] t] eqn:H.
  unfold trace_of, outcome_of in *. cbn [fst snd] in *.
  destruct (waitForDownload_polls _ _ _ _ _ _ _ _ _ Hb H)
    as (r & t' & P & Hr & Ht').
  split.
  - intros Hin.
    apply in_split in Hin. destruct Hin as (l1 & l2 & Hin).
    rewrite Ht' in Hin. destruct l1 as [|a l1]; [discriminate Hin|].
    inversion Hin as [[Ha Hl]].
    destruct (polls_log _ _ _ _ _ _ _ _ _ P _ _ _ Hl) as [v Hv].
    subst r o. destruct Ho as [Ho|Ho]; discriminate Ho.
  - assert (Hin : In (FsStat p tm (Throw e)) t')
      by (rewrite Ht' in Ht; destruct pre; inversion Ht; subst;
          apply in_or_app; right; now left).
    exact (polls_stat_new _ _ _ _ _ _ _ _ _ P _ _ _ Hin).
Qed.

Lemma vanished_candidate_fails_the_watch_witness :
  outcome_of (waitForDownload renamed "/app/downloads" default_timeout 3 start)
  = Rejected ENOENT \/
  outcome_of (waitForDownload renamed "/app/downloads" default_timeout 3 start)
  = Uncaught ENOENT.
Proof.
  refine (proj1 (proj2 (vanished_candidate_fails_the_watch
            renamed "/app/downloads" default_timeout 3 start []
            [FsReaddir "/app/downloads" 0 (Ok []);
             FsReaddir "/app/downloads" 0 (Ok ["out.json.crdownload"])]
            "/app/downloads/out.json.crdownload" 0 ENOENT [] eq_refl _))).
  vm_compute. reflexivity.
Defined.

(** ** C7: the watcher only reads *)

Lemma watcher_event_reads dir ev : watcher_event dir ev -> mutates ev = false.
Proof. destruct ev; simpl; intros H; try reflexivity; destruct H. Qed.

(** The script itself does change the file system, outside the watcher:
    it creates the download directory when it is missing. *)
Lemma main_creates_missing_directory :
  In (FsMkdir "/app/downloads" (Ok tt))
     (snd (run missing all_ok no_stats "/app" Part000 1 start)).
Proof. vm_compute. right. left. reflexivity. Qed.

(** C7: every [fs] call of a watch is a listing of the watched directory or
    a size read of a path inside it; a watch makes no call that creates,
    writes, renames or deletes anything. *)
Theorem watch_never_mutates w dir timeout fuel c :
  Forall (fun ev => watcher_event dir ev /\ mutates ev = false)
         (trace_of (waitForDownload w dir timeout fuel c)).
Proof.
  assert (H : Forall (watcher_event dir)
                (trace_of (waitForDownload w dir timeout fuel c))).
  { rewrite waitForDownload_eq.
    destruct (readdirSync_of (w (seq c)) dir) as [init|e].
    - destruct (checkDownload w dir timeout (now c) init fuel (called 1 c))
        as [[r c'] t] eqn:E.
      apply checkDownload_polls, polls_events in E.
      unfold trace_of. cbn [snd]. constructor; [reflexivity|exact E].
    - unfold trace_of. cbn [snd]. constructor; [reflexivity|constructor]. }
  eapply Forall_impl; [|exact H].
  intros ev Hev. split; [exact Hev|]. now apply watcher_event_reads with dir.
Qed.

(** ** C8: successive watches *)

(** A run depends on the file system from its own first call on, and on
    nothing that was observed before. *)
Lemma checkDownload_ext w w' dir timeout st init :
  forall fuel c,
    (forall i, (seq c <= i)%nat -> w' i = w i) ->
    checkDownload w' dir timeout st init fuel c
    = checkDownload w dir timeout st init fuel c.
Proof.
  induction fuel as [|fuel IH]; intros c Hw; [reflexivity|].
  rewrite !checkDownload_S.
  rewrite (Hw (seq c)), (Hw (S (seq c))), (Hw (S (S (seq c)))) by lia.
  rewrite (IH (after 1 100 c)), (IH (after 3 100 c));
    [reflexivity|intros i Hi; apply Hw; simpl in Hi; lia..].
Qed.

Lemma waitForDownload_ext w w' dir timeout fuel c :
  (forall i, (seq c <= i)%nat -> w' i = w i) ->
  waitForDownload w' dir timeout fuel c = waitForDownload w dir timeout fuel c.
Proof.
  intros Hw. rewrite !waitForDownload_eq.
  rewrite (Hw (seq c)) by lia.
  destruct (readdirSync_of (w (seq c)) dir) as [init|e]; [|reflexivity].
  rewrite (checkDownload_ext w w'); [reflexivity|].
  intros i Hi. apply Hw. simpl in Hi. lia.
Qed.

(** C8: every call reads its own baseline first, at its own start, and its
    course depends on nothing observed before that start.  Hence, when the
    listing at the start of a second call is the one a first, successful
    call saw last, the reported file is in the second baseline and the
    second call never reports it; and in a directory whose listing never
    changes, both calls time out. *)
Theorem successive_watches_are_independent w dir :
  (forall timeout fuel c,
     exists rest,
       trace_of (waitForDownload w dir timeout fuel c)
       = FsReaddir dir (now c) (readdirSync_of (w (seq c)) dir) :: rest) /\
  (forall w' timeout fuel c,
     (forall i, (seq c <= i)%nat -> w' i = w i) ->
     waitForDownload w' dir timeout fuel c = waitForDownload w dir timeout fuel c) /\
  (forall timeout1 fuel1 c p c1 t1 l,
     waitForDownload w dir timeout1 fuel1 c = (Fulfilled (Some p), c1, t1) ->
     last_listing t1 = Some l ->
     readdirSync_of (w (seq c1)) dir = Ok l ->
     (exists n, p = path_join dir n /\ In n l) /\
     forall timeout2 fuel2 later,
       outcome_of (waitForDownload w dir timeout2 fuel2
                     {| now := later; seq := seq c1 |})
       <> Fulfilled (Some p)) /\
  (forall timeout1 timeout2 c l,
     (forall i, readdirSync_of (w i) dir = Ok l) ->
     exists fuel1 c1 t1 fuel2 c2 t2,
       waitForDownload w dir timeout1 fuel1 c = (Fulfilled None, c1, t1) /\
       waitForDownload w dir timeout2 fuel2 c1 = (Fulfilled None, c2, t2)).
Proof.
  split; [|split; [|split]].
  - intros timeout fuel c. rewrite waitForDownload_eq.
    destruct (readdirSync_of (w (seq c)) dir) as [init|e].
    + destruct (checkDownload w dir timeout (now c) init fuel (called 1 c))
        as [[r c'] t].
      eexists. reflexivity.
    + eexists. reflexivity.
  - intros w' timeout fuel c. apply waitForDownload_ext.
  - intros timeout1 fuel1 c p c1 t1 l H1 Hlast Hb2.
    destruct (waitForDownload_success _ _ _ _ _ _ _ _ H1)
      as (init & pre & l' & n & rest & tm & sz & _ & Ht & Hn & Hp).
    assert (El : l' = l).
    { subst t1. rewrite app_comm_cons, last_listing_app in Hlast.
      simpl in Hlast. congruence. }
    subst l'.
    assert (Hin : In n l).
    { assert (Hi : In n (newFiles init l)) by (rewrite Hn; now left).
      now apply newFiles_In in Hi. }
    split; [exists n; auto|].
    intros timeout2 fuel2 later. subst p.
    apply (waitForDownload_skips_baseline w dir timeout2 fuel2
             {| now := later; seq := seq c1 |} l n Hb2 Hin).
  - intros timeout1 timeout2 c l Hl.
    assert (Hq : forall from, nothing_new w dir l from)
      by (intros from i _; exists l; auto).
    destruct (waitForDownload_times_out w dir timeout1 c l (Hl _) (Hq _))
      as (fuel1 & c1 & t1 & E1 & _).
    destruct (waitForDownload_times_out w dir timeout2 c1 l (Hl _) (Hq _))
      as (fuel2 & c2 & t2 & E2 & _).
    exists fuel1, c1, t1, fuel2, c2, t2. auto.
Qed.

Lemma successive_watches_are_independent_witness :
  (exists n,
     "/app/downloads/out.json" = path_join "/app/downloads" n /\
     In n ["out.json"]) /\
  forall timeout2 fuel2 later,
    outcome_of (waitForDownload one_shot "/app/downloads" timeout2 fuel2
                  {| now := later; seq := 6 |})
    <> Fulfilled (Some "/app/downloads/out.json").
Proof.
  pose (d := waitForDownload one_shot "/app/downloads" default_timeout 3 start).
  assert (Hd : waitForDownload one_shot "/app/downloads" default_timeout 3 start
               = (Fulfilled (Some "/app/downloads/out.json"),
                  {| now := 300; seq := 6 |}, trace_of d))
    by (vm_compute; reflexivity).
  assert (Hl : last_listing (trace_of d) = Some ["out.json"])
    by (vm_compute; reflexivity).
  exact (proj1 (proj2 (proj2 (successive_watches_are_independent
                                one_shot "/app/downloads")))
           default_timeout 3%nat start _ _ _ ["out.json"] Hd Hl eq_refl).
Defined.

(** * Further properties of the watcher *)

(** ** A candidate that never settles *)

Lemma keeps_changing_pending w dir timeout st init :
  forall fuel c,
    keeps_changing w dir init (seq c) ->
    exists c' t,
      checkDownload w dir timeout st init fuel c = (Ok Pending, c', t).
Proof.
  induction fuel as [|fuel IH]; intros c Hk.
  - exists c, []. reflexivity.
  - rewrite checkDownload_S.
    destruct (Hk (seq c) (le_n _)) as (l & n & rest & a & b & -> & -> & -> & -> & Hab).
    apply Z.eqb_neq in Hab. rewrite Hab.
    destruct (IH (after 3 100 c)) as (c' & t & E).
    + intros i Hi. apply Hk. simpl in Hi. lia.
    + rewrite E. eexists _, _. reflexivity.
Qed.

(** X1: while every poll lists a candidate whose two size reads succeed and
    differ, the watch does not return, whatever the timeout and however
    long it runs. *)
Theorem changing_candidate_never_returns w dir timeout fuel c init :
  readdirSync_of (w (seq c)) dir = Ok init ->
  keeps_changing w dir init (S (seq c)) ->
  outcome_of (waitForDownload w dir timeout fuel c) = Pending.
Proof.
  intros Hb Hk. rewrite waitForDownload_eq, Hb.
  destruct (keeps_changing_pending w dir timeout (now c) init fuel (called 1 c))
    as (c' & t & E); [exact Hk|].
  rewrite E. reflexivity.
Qed.

Lemma changing_candidate_never_returns_witness :
  outcome_of (waitForDownload growing "/app/downloads" 0 1000 start) = Pending.
Proof.
  apply (changing_candidate_never_returns
           growing "/app/downloads" 0 1000 start ["old.json"]).
  - reflexivity.
  - intros i Hi. destruct i as [|i]; [simpl in Hi; lia|].
    exists ["old.json"; "out.json"], "out.json", [],
      (Z.of_nat (S (S i))), (Z.of_nat (S (S (S i)))).
    repeat split; try reflexivity. lia.
Defined.

(** ** Polls that find nothing new before the deadline *)








(** ** Rejected or uncaught *)

Lemma polls_never_rejects w dir timeout st init c r c' t :
  polls w dir timeout st init c r c' t ->
  forall e, r <> Ok (Rejected e).
Proof.
  induction 1; intros e0 He; try discriminate He.
  all: destruct r as [o|e1]; simpl in He; try discriminate He.
  all: now apply (IHpolls e0).
Qed.

Lemma polls_clock w dir timeout st init c r c' t :
  polls w dir timeout st init c r c' t ->
  now c <= now c' /\
  (forall e, r = Throw e -> now c' = now c) /\
  (forall e, r = Ok (Uncaught e) -> now c + 100 <= now c').
Proof.
  induction 1; cbn [called after now] in *;
    try (destruct IHpolls as (Hle & Hthrow & Hunc));
    (split; [lia|split; intros e0 He]);
    try discriminate He; try reflexivity; try lia.
  all: destruct r as [o|e1]; simpl in He; try discriminate He.
  all: try (injection He as ->; specialize (Hunc _ eq_refl); lia).
  all: specialize (Hthrow _ eq_refl); lia.
Qed.

(** X4: the promise of a watch is rejected only by a failure before the
    first timer: a rejected watch ends at the instant it started.  A watch
    that fails at least one poll interval after its start fails with an
    uncaught exception, which no handler of the promise ever sees. *)
Theorem rejection_only_before_first_timer w dir timeout fuel c o c' t :
  waitForDownload w dir timeout fuel c = (o, c', t) ->
  now c <= now c' /\
  (forall e, o = Rejected e -> now c' = now c) /\
  (forall e, o = Uncaught e -> now c + pollInterval <= now c').
Proof.
  intros H. rewrite waitForDownload_eq in H.
  destruct (readdirSync_of (w (seq c)) dir) as [init|e0].
  - destruct (checkDownload w dir timeout (now c) init fuel (called 1 c))
      as [[r c1] t1] eqn:E.
    inversion H; subst. apply checkDownload_polls in E.
    pose proof (polls_never_rejects _ _ _ _ _ _ _ _ _ E) as Hrej.
    apply polls_clock in E.
    cbn [called now] in E. destruct E as (Hle & Hthrow & Hunc).
    unfold pollInterval. split; [exact Hle|]. split.
    + intros e He. destruct r as [o1|e1]; simpl in He.
      * subst o1. now destruct (Hrej e).
      * now apply (Hthrow e1).
    + intros e He. destruct r as [o1|e1]; simpl in He; [|discriminate He].
      subst o1. now apply (Hunc e).
  - inversion H; subst. unfold pollInterval. cbn [called now].
    split; [lia|]. split; [reflexivity|discriminate].
Qed.

Lemma rejection_only_before_first_timer_witness :
  now (cfg_of (waitForDownload renamed "/app/downloads" default_timeout 3 start))
  = now start.
Proof.
  pose (d := waitForDownload renamed "/app/downloads" default_timeout 3 start).
  assert (Hd : waitForDownload renamed "/app/downloads" default_timeout 3 start
               = (Rejected ENOENT, cfg_of d, trace_of d))
    by (vm_compute; reflexivity).
  exact (proj1 (proj2 (rejection_only_before_first_timer
                         renamed "/app/downloads" default_timeout 3 start
                         _ _ _ Hd)) ENOENT eq_refl).
Defined.

(** ** Which entries count as new *)

(** X5: the new entries of a listing are its entries whose names the
    baseline lacks, in listing order.  With an empty baseline every entry
    is new; a listing equal to the baseline has none; and entries listed
    before or after do not change whether an entry is new. *)
Theorem newFiles_by_name init l :
  (forall n, In n (newFiles init l) <-> In n l /\ ~ In n init) /\
  newFiles [] l = l /\
  newFiles init init = [] /\
  (forall l', newFiles init (l ++ l') = newFiles init l ++ newFiles init l').
Proof.
  split; [intros n; apply newFiles_In|].
  split; [|split].
  - induction l as [|a l IH]; [reflexivity|].
    change (newFiles [] (a :: l)) with (a :: newFiles [] l). now rewrite IH.
  - apply newFiles_nil. auto.
  - intros l'. unfold newFiles. apply filter_app.
Qed.

(** * Further properties of the scripts *)

Ltac unfold_script :=
  unfold before_download, main_no_wait, generate_map, print_statistics,
    await_call, existsSync, mkdirSync;
  unfold_M.

Ltac each_answer answer :=
  repeat match goal with
    | |- context [answer ?s] => destruct (answer s) eqn:?; cbn
    end.

Section ScriptFacts.
Variable w : world.
Variable answer : step -> result string.
Variable stats_field : string -> string.
Variable dirname : string.

Abbreviation the_download_path := (path_resolve dirname "downloads").
Abbreviation prepare := (before_download w answer stats_field dirname).

(** The awaited calls of a script up to the export are made in source
    order and stop with the first that fails. *)
Lemma before_download_calls sc c :
  match ensure_directory w c the_download_path with
  | Throw e =>
      outcome_of (prepare sc c) = Throw e /\ calls (trace_of (prepare sc c)) = []
  | Ok _ =>
      calls (trace_of (prepare sc c))
      = fst (calls_until_failure answer (steps_before_download sc)) /\
      outcome_of (prepare sc c)
      = match snd (calls_until_failure answer (steps_before_download sc)) with
        | None => Ok the_download_path
        | Some e => Throw e
        end
  end.
Proof.
  unfold ensure_directory, outcome_of, trace_of. unfold_script. cbn.
  destruct (existsSync_of (w (seq c)) the_download_path); cbn;
    [|destruct (mkdirSync_of (w (S (seq c))) the_download_path); cbn];
    try (split; reflexivity);
    destruct sc; cbn; each_answer answer; split; reflexivity.
Qed.

(** Before the watch a script touches the file system for the download
    directory only: one [existsSync], and one [mkdirSync] if that said
    no; the other events are collaborator calls, none of them a close, and
    logs. *)
Lemma before_download_fs sc c :
  fs_events (trace_of (prepare sc c))
  = (if existsSync_of (w (seq c)) the_download_path
     then [FsExists the_download_path true]
     else [FsExists the_download_path false;
           FsMkdir the_download_path
             (mkdirSync_of (w (S (seq c))) the_download_path)]) /\
  Forall (fun ev =>
            match ev with
            | FsExists _ _ | FsMkdir _ _ | ConsoleLog _ => True
            | Call s => s <> BrowserClose
            | _ => False
            end) (trace_of (prepare sc c)).
Proof.
  unfold trace_of. unfold_script. cbn.
  destruct (existsSync_of (w (seq c)) the_download_path); cbn;
    [|destruct (mkdirSync_of (w (S (seq c))) the_download_path); cbn];
    try (split; [reflexivity|repeat constructor; discriminate]);
    destruct sc; cbn; each_answer answer;
    (split; [reflexivity|repeat constructor; discriminate]).
Qed.


Lemma before_download_path sc c dp c1 t1 :
  prepare sc c = (Ok dp, c1, t1) -> dp = the_download_path.
Proof.
  intros H. pose proof (before_download_calls sc c) as Hc.
  unfold outcome_of in Hc. rewrite H in Hc. cbn [fst] in Hc.
  destruct (ensure_directory w c the_download_path).
  - destruct Hc as [_ Hc].
    destruct (snd (calls_until_failure answer (steps_before_download sc)));
      congruence.
  - destruct Hc as [Hc _]. discriminate Hc.
Qed.

Lemma run_before_failed sc fuel c e c1 t1 :
  prepare sc c = (Throw e, c1, t1) ->
  run w answer stats_field dirname sc fuel c
  = (Some 1,
     t1 ++ [ConsoleError ("Error occurred: " +:+ show_error e); ProcessExit 1]).
Proof.
  intros H. unfold run, main. unfold bind at 1. rewrite H. reflexivity.
Qed.
End ScriptFacts.

Lemma waitForDownload_events w dir timeout fuel c :
  Forall (watcher_event dir) (trace_of (waitForDownload w dir timeout fuel c)).
Proof.
  rewrite waitForDownload_eq.
  destruct (readdirSync_of (w (seq c)) dir) as [init|e].
  - destruct (checkDownload w dir timeout (now c) init fuel (called 1 c))
      as [[r c'] t] eqn:E.
    apply checkDownload_polls, polls_events in E.
    unfold trace_of. cbn [snd]. constructor; [reflexivity|exact E].
  - unfold trace_of. cbn [snd]. constructor; [reflexivity|constructor].
Qed.

Lemma truthy_path_join dir n : truthy (Some (path_join dir n)) = true.
Proof.
  unfold truthy, path_join. destruct dir; reflexivity.
Qed.

(** ** The steps before the watch *)


(** ** The events of a whole run *)

Section RunFacts.
Variable w : world.
Variable answer : step -> result string.
Variable stats_field : string -> string.
Variable dirname : string.

Abbreviation download_dir := (path_resolve dirname "downloads").
Abbreviation script_run := (run w answer stats_field dirname).
Abbreviation script_start := (before_download w answer stats_field dirname).

(** A run is the steps before the watch, then the events of the watch,
    then what the script does with its result. *)
Lemma run_trace sc fuel c :
  exists t2 t3,
    snd (script_run sc fuel c) = trace_of (script_start sc c) ++ t2 ++ t3 /\
    Forall (watcher_event download_dir) t2 /\
    Forall (fun ev => is_fs ev = false) t3 /\
    (In ServerClose t3 <-> fst (script_run sc fuel c) = Some 0).
Proof.
  destruct (script_start sc c) as [[[dp|e] c1] t1] eqn:Hp.
  - pose proof (before_download_path _ _ _ _ _ _ _ _ _ Hp) as ->.
    destruct (waitForDownload w download_dir default_timeout fuel c1)
      as [[o c2] t2] eqn:Hw.
    rewrite (run_after_download _ _ _ _ _ _ _ _ _ _ _ _ _ Hp Hw).
    pose proof (waitForDownload_events w download_dir default_timeout fuel c1)
      as Hev.
    rewrite Hw in Hev. unfold trace_of in *. cbn [snd] in *.
    assert (Hno : forall l : trace,
              Forall (fun ev => is_fs ev = false /\ ev <> ServerClose) l ->
              Forall (fun ev => is_fs ev = false) l /\
              (In ServerClose l <-> @None Z = Some 0) /\
              (In ServerClose l <-> Some 1 = Some 0)).
    { intros l Hl. rewrite Forall_forall in Hl. split; [|split].
      - apply Forall_forall. intros ev Hin. now apply Hl.
      - split; [|discriminate]. intros Hin. now apply Hl in Hin.
      - split; [|discriminate]. intros Hin. now apply Hl in Hin. }
    destruct o as [v|e|e|]; [destruct (answer BrowserClose)|..]; cbn [fst snd].
    + eexists t2, _. split; [reflexivity|]. split; [exact Hev|].
      split; [repeat constructor; now destruct (truthy v)|].
      cbn [In]. split; [reflexivity|tauto].
    + eexists t2, _. split; [reflexivity|]. split; [exact Hev|].
      match goal with
      | |- Forall _ ?l /\ _ =>
          destruct (Hno l) as (A & B & C);
          [repeat constructor; discriminate|auto]
      end.
    + eexists t2, _. split; [reflexivity|]. split; [exact Hev|].
      match goal with
      | |- Forall _ ?l /\ _ =>
          destruct (Hno l) as (A & B & C);
          [repeat constructor; discriminate|auto]
      end.
    + exists t2, []. rewrite app_nil_r. split; [reflexivity|].
      split; [exact Hev|].
      destruct (Hno []) as (A & B & C); [constructor|auto].
    + exists t2, []. rewrite app_nil_r. split; [reflexivity|].
      split; [exact Hev|].
      destruct (Hno []) as (A & B & C); [constructor|auto].
  - rewrite (run_before_failed _ _ _ _ _ _ _ _ _ _ Hp).
    exists [], [ConsoleError ("Error occurred: " +:+ show_error e); ProcessExit 1].
    unfold trace_of. cbn [fst snd app].
    split; [reflexivity|]. split; [constructor|].
    split; [repeat constructor|].
    cbn [In]. split; intros H; [|discriminate H].
    destruct H as [H|[H|[]]]; discriminate H.
Qed.
End RunFacts.

(** X7: the only change a script ever makes to the file system is to create
    its download directory, and it does so only after [existsSync] said
    the directory was missing; nothing else in a run, the watch included,
    creates, writes, renames or deletes. *)
Theorem script_only_creates_download_directory
    w answer stats_field dirname sc fuel c ev :
  In ev (snd (run w answer stats_field dirname sc fuel c)) ->
  mutates ev = true ->
  existsSync_of (w (seq c)) (path_resolve dirname "downloads") = false /\
  ev = FsMkdir (path_resolve dirname "downloads")
         (mkdirSync_of (w (S (seq c))) (path_resolve dirname "downloads")).
Proof.
  intros Hin Hmut.
  destruct (run_trace w answer stats_field dirname sc fuel c)
    as (t2 & t3 & Ht & H2 & H3 & _).
  rewrite Ht in Hin. apply in_app_or in Hin. destruct Hin as [Hin|Hin].
  - assert (Hfs : In ev (fs_events
                           (trace_of (before_download w answer stats_field
                                        dirname sc c)))).
    { unfold fs_events. apply filter_In. split; [exact Hin|].
      destruct ev; try discriminate Hmut. reflexivity. }
    rewrite (proj1 (before_download_fs w answer stats_field dirname sc c)) in Hfs.
    destruct (existsSync_of (w (seq c)) (path_resolve dirname "downloads")).
    + destruct Hfs as [<-|[]]. discriminate Hmut.
    + destruct Hfs as [<-|[<-|[]]]; [discriminate Hmut|]. auto.
  - apply in_app_or in Hin. destruct Hin as [Hin|Hin].
    + rewrite Forall_forall in H2. apply H2 in Hin.
      apply watcher_event_reads in Hin. congruence.
    + rewrite Forall_forall in H3. apply H3 in Hin.
      destruct ev; discriminate.
Qed.

Lemma script_only_creates_download_directory_witness :
  existsSync_of (missing (seq start)) (path_resolve "/app" "downloads") = false /\
  FsMkdir "/app/downloads" (Ok tt)
  = FsMkdir (path_resolve "/app" "downloads")
      (mkdirSync_of (missing (S (seq start))) (path_resolve "/app" "downloads")).
Proof.
  apply (script_only_creates_download_directory
           missing all_ok no_stats "/app" Part000 1 start
           (FsMkdir "/app/downloads" (Ok tt))).
  - vm_compute. right. left. reflexivity.
  - reflexivity.
Defined.

(** X8: [server.close()] is called in exactly the runs that end with exit
    code 0.  On every exit with code 1, and while the watch is pending, the
    server is left open. *)
Theorem server_closed_iff_exit_code_zero w answer stats_field dirname sc fuel c :
  In ServerClose (snd (run w answer stats_field dirname sc fuel c)) <->
  fst (run w answer stats_field dirname sc fuel c) = Some 0.
Proof.
  destruct (run_trace w answer stats_field dirname sc fuel c)
    as (t2 & t3 & Ht & H2 & H3 & Hiff).
  rewrite Ht, <- Hiff. split.
  - intros Hin. apply in_app_or in Hin. destruct Hin as [Hin|Hin].
    + pose proof (proj2 (before_download_fs w answer stats_field dirname sc c))
        as Hev.
      rewrite Forall_forall in Hev. now apply Hev in Hin.
    + apply in_app_or in Hin. destruct Hin as [Hin|Hin]; [|exact Hin].
      rewrite Forall_forall in H2. now apply H2 in Hin.
  - intros Hin. apply in_or_app. right. apply in_or_app. now right.
Qed.

(** X9: every path the watcher returns is a non-empty string, so a
    successful watch always takes the success branch: the browser and the
    server are closed, the path is logged, and the process ends with exit
    code 0, provided [browser.close()] does not fail. *)
Theorem download_success_is_logged
    w answer stats_field dirname sc fuel c dp c1 t1 p c2 t2 v :
  before_download w answer stats_field dirname sc c = (Ok dp, c1, t1) ->
  waitForDownload w dp default_timeout fuel c1 = (Fulfilled (Some p), c2, t2) ->
  answer BrowserClose = Ok v ->
  run w answer stats_field dirname sc fuel c
  = (Some 0,
     t1 ++ t2 ++
     [Call BrowserClose; ServerClose;
      ConsoleLog ("JSON file successfully downloaded to: " +:+ p);
      ConsoleLog "Server closed."]).
Proof.
  intros Hp Hw Hv.
  rewrite (run_after_download _ _ _ _ _ _ _ _ _ _ _ _ _ Hp Hw), Hv.
  destruct (waitForDownload_success _ _ _ _ _ _ _ _ Hw)
    as (init & pre & l & n & rest & tm & sz & _ & _ & _ & ->).
  rewrite truthy_path_join. reflexivity.
Qed.

Lemma download_success_is_logged_witness :
  fst (run one_shot all_ok no_stats "/app" EntryCjs 3 start) = Some 0 /\
  firstn 4 (rev (snd (run one_shot all_ok no_stats "/app" EntryCjs 3 start))) =
  [ConsoleLog "Server closed.";
   ConsoleLog "JSON file successfully downloaded to: /app/downloads/out.json";
   ServerClose; Call BrowserClose].
Proof.
  pose (b := before_download one_shot all_ok no_stats "/app" EntryCjs start).
  pose (d := waitForDownload one_shot "/app/downloads" default_timeout 3
               (cfg_of b)).
  assert (Hb : before_download one_shot all_ok no_stats "/app" EntryCjs start
               = (Ok "/app/downloads", cfg_of b, trace_of b))
    by (vm_compute; reflexivity).
  assert (Hd : waitForDownload one_shot "/app/downloads" default_timeout 3
                 (cfg_of b)
               = (Fulfilled (Some "/app/downloads/out.json"), cfg_of d, trace_of d))
    by (vm_compute; reflexivity).
  rewrite (download_success_is_logged
             one_shot all_ok no_stats "/app" EntryCjs 3 start
             "/app/downloads" _ _ _ _ _ "undefined" Hb Hd eq_refl).
  cbn [fst snd]. split; [reflexivity|].
  rewrite !rev_app_distr. reflexivity.
Defined.

(** ** The two watching scripts *)



(** ** The script that does not wait *)


(** ** A run that never ends *)

(** X12: when the export succeeded and every poll of the watch lists a
    candidate that is still changing, the script never gets past
    [await waitForDownload()]: however long it runs the process has no
    exit code, and the browser and the server are never closed. *)
Theorem changing_download_hangs_the_script
    w answer stats_field dirname sc fuel c dp c1 t1 init :
  before_download w answer stats_field dirname sc c = (Ok dp, c1, t1) ->
  readdirSync_of (w (seq c1)) dp = Ok init ->
  keeps_changing w dp init (S (seq c1)) ->
  fst (run w answer stats_field dirname sc fuel c) = None /\
  ~ In (Call BrowserClose) (snd (run w answer stats_field dirname sc fuel c)) /\
  ~ In ServerClose (snd (run w answer stats_field dirname sc fuel c)).
Proof.
  intros Hp Hb Hk.
  destruct (waitForDownload w dp default_timeout fuel c1) as [[o c2] t2] eqn:Hw.
  assert (Ho : o = Pending).
  { rewrite waitForDownload_eq, Hb in Hw.
    destruct (keeps_changing_pending w dp default_timeout (now c1) init fuel
                (called 1 c1)) as (c' & t & E); [exact Hk|].
    rewrite E in Hw. inversion Hw. reflexivity. }
  subst o.
  pose proof (waitForDownload_events w dp default_timeout fuel c1) as Hev.
  rewrite Hw in Hev. unfold trace_of in Hev. cbn [snd] in Hev.
  pose proof (proj2 (before_download_fs w answer stats_field dirname sc c)) as H1.
  rewrite Hp in H1. unfold trace_of in H1. cbn [snd] in H1.
  rewrite Forall_forall in Hev, H1.
  rewrite (run_after_download _ _ _ _ _ _ _ _ _ _ _ _ _ Hp Hw). cbn [fst snd].
  split; [reflexivity|].
  split; intros Hin; apply in_app_or in Hin; destruct Hin as [Hin|Hin];
    try (apply H1 in Hin; now simpl in Hin);
    apply Hev in Hin; exact Hin.
Qed.

Lemma changing_download_hangs_the_script_witness :
  fst (run growing_after_check all_ok no_stats "/app" Part000 400 start) = None /\
  ~ In (Call BrowserClose)
       (snd (run growing_after_check all_ok no_stats "/app" Part000 400 start)) /\
  ~ In ServerClose
       (snd (run growing_after_check all_ok no_stats "/app" Part000 400 start)).
Proof.
  pose (b := before_download growing_after_check all_ok no_stats "/app"
               Part000 start).
  assert (Hb : before_download growing_after_check all_ok no_stats "/app"
                 Part000 start
               = (Ok "/app/downloads", {| now := 0; seq := 1 |}, trace_of b))
    by (vm_compute; reflexivity).
  apply (changing_download_hangs_the_script
           growing_after_check all_ok no_stats "/app" Part000 400 start
           "/app/downloads" _ _ ["old.json"] Hb).
  - reflexivity.
  - intros i Hi. destruct i as [|[|i]]; [simpl in Hi; lia..|].
    exists ["old.json"; "out.json"], "out.json", [],
      (Z.of_nat (S (S i))), (Z.of_nat (S (S (S i)))).
    repeat split; try reflexivity. lia.
Defined.
